(** * zoom.py: batch management of Zoom users through the REST API

    A shallow embedding of [src/zoom.py].  The script reads a list of user
    actions, dispatches each one to a handler ([update], [delete],
    [listusers]) and writes one CSV row per processed action.  The handlers
    talk to the remote API through [requests] and sign a fresh token for
    every call with [generateToken].

    Modelling choices:
    - The script runs under Python 2 (it writes [str] rows to a file opened
      in binary mode and decodes the token returned by [jwt.encode]).
      Python strings, byte strings and unicode strings alike, are
      [string]s; a character above 127 stands for a character that is not
      ASCII.  Integers are [Z].
    - Where Python 2 converts between the two kinds of string, implicitly
      or with [str], the conversion uses the ASCII codec and raises on a
      character that is not ASCII; each such place of the script is
      written out ([Py.is_ascii], [str_unicode]).
    - The remote API and the token signer are oracles ([Remote]): the reply
      to a request may depend on every request sent before it, and either
      oracle may raise.
    - What the interpreter decides and the script does not (the order in
      which [locals()] is iterated, how an exception prints, what
      [json.loads] and [str] return on decoded values, the source line a
      traceback shows) is a field of [PyRuntime].
    - Observable effects are explicit state ([World]): the requests sent,
      the number of tokens signed, the lines printed, the log records and
      the rows written to the output file.
    - A Python exception is the [Raise] outcome of a computation; the
      [while] loop of [listusers] runs on fuel and [None] means that the
      fuel ran out.
    - JSON numbers are integers in this model; non-integral numbers are not
      represented. *)

From Stdlib Require Import String Ascii List ZArith Bool Lia.
From Stdlib Require Import DecimalString DecimalZ DecimalPos.
Import ListNotations.
Open Scope string_scope.
Open Scope Z_scope.

Set Implicit Arguments.

(** ** Strings *)

Module Py.

(** The double quote character, and [s] between double quotes. *)
Definition dquote : ascii := ascii_of_nat 34.
Definition quoted (s : string) : string :=
  String dquote (s ++ String dquote EmptyString).

(** [needle in hay] *)
Fixpoint contains (needle hay : string) : bool :=
  String.prefix needle hay
  || match hay with
     | EmptyString => false
     | String _ rest => contains needle rest
     end.

(** [s.split(c)] for a separator of one character: never empty. *)
Fixpoint split (c : ascii) (s : string) : list string :=
  match s with
  | EmptyString => [EmptyString]
  | String a rest =>
      if Ascii.eqb a c then EmptyString :: split c rest
      else match split c rest with
           | h :: t => String a h :: t
           | [] => [String a EmptyString]
           end
  end.

(** [s.replace(c, '')] for a pattern of one character. *)
Fixpoint remove (c : ascii) (s : string) : string :=
  match s with
  | EmptyString => EmptyString
  | String a rest =>
      if Ascii.eqb a c then remove c rest else String a (remove c rest)
  end.

(** [sep.join(l)] *)
Definition join (sep : string) (l : list string) : string :=
  String.concat sep l.

(** [str(n)] for an integer. *)
Definition str_int (n : Z) : string := NilZero.string_of_int (Z.to_int n).

(** Every character of [s] is below 128. *)
Fixpoint is_ascii (s : string) : bool :=
  match s with
  | EmptyString => true
  | String (Ascii _ _ _ _ _ _ _ high) rest => negb high && is_ascii rest
  end.

End Py.

(** ** Values, exceptions and outcomes *)

(** A value decoded by [json.loads]. A [PyDict] lists its keys in iteration
    order; its keys are distinct. *)
#[local] Unset Elimination Schemes.
Inductive pyobj : Type :=
| PyNone
| PyBool (b : bool)
| PyInt (n : Z)
| PyStr (s : string)
| PyList (l : list pyobj)
| PyDict (kvs : list (string * pyobj)).
#[local] Set Elimination Schemes.

(** The exceptions the script can meet; all derive from [Exception]. *)
Inductive exn : Type :=
| RequestException (msg : string)   (* raised by [requests]; an [IOError] *)
| TokenError (msg : string)         (* raised inside [generateToken] *)
| UnboundLocalError (var : string)
| IndexError
| KeyError (key : string)
| TypeError (what : string)
| ValueError (msg : string)
| UnicodeEncodeError                (* [str] of a unicode string *)
| UnicodeDecodeError.               (* a byte string met as unicode *)

Definition is_IOError (e : exn) : bool :=
  match e with RequestException _ => true | _ => false end.

Inductive outcome (A : Type) : Type :=
| Ok (a : A)
| Raise (e : exn).
Arguments Ok {A} a.
Arguments Raise {A} e.

(** [str(s)] on a unicode string: the ASCII codec. *)
Definition str_unicode (s : string) : outcome string :=
  if Py.is_ascii s then Ok s else Raise UnicodeEncodeError.

(** Where control goes after a block that may execute [return r]. *)
Inductive flow (R A : Type) : Type :=
| Next (a : A)
| Return (r : R).
Arguments Next {R A} a.
Arguments Return {R A} r.

(** The value bound to [id] in [findUserId]: [False] or a string. *)
Inductive idval : Type :=
| IdFalse
| IdStr (s : string).

Definition truthy (i : idval) : bool :=
  match i with
  | IdFalse => false
  | IdStr s => negb (s =? "")%string
  end.

Definition str_id (i : idval) : string :=
  match i with
  | IdFalse => "False"
  | IdStr s => s
  end.

(** ** Requests, responses and the world *)

Inductive Method : Type := GET | PATCH | PUT | DELETE.

Record Request : Type := mkRequest {
  method : Method;
  url : string;
  json : option (list (string * string));
  headers : list (string * string)
}.

Record Response : Type := mkResponse {
  status_code : Z;
  text : string
}.

Inductive Level : Type := INFO | ERROR | CRITICAL.

Record World : Type := mkWorld {
  calls : list Request;            (* requests sent, oldest first *)
  issued : nat;                    (* tokens signed so far *)
  stdout : list string;            (* lines printed, oldest first *)
  zoom_log : list (Level * string);  (* records of zoom.log *)
  out_rows : list (list string)    (* rows written to the output file *)
}.

Definition world0 : World := mkWorld [] 0 [] [] [].

(** The remote side: the token signer, asked for its [n]-th token, and the
    transport, given the requests sent so far and the new one. *)
Record Remote : Type := mkRemote {
  jwt_encode : nat -> outcome string;
  send : list Request -> Request -> outcome Response
}.

(** The five parameters of [update], the keys of its [locals()]. *)
Inductive Param : Type :=
| p_username | p_newusername | p_loginDisabled | p_givenName | p_sn.

Definition param_name (p : Param) : string :=
  match p with
  | p_username => "username"
  | p_newusername => "newusername"
  | p_loginDisabled => "loginDisabled"
  | p_givenName => "givenName"
  | p_sn => "sn"
  end.

(** What the interpreter and its libraries decide. *)
Record PyRuntime : Type := mkPyRuntime {
  locals_order : list Param;              (* iteration order of [locals()] *)
  json_loads : string -> outcome pyobj;
  py_str : pyobj -> string;               (* [str(v)] on a decoded value *)
  str_exn : exn -> string;                (* ["{0}".format(e)] *)
  traceback_line : string -> string       (* line of [main] shown for an action *)
}.

(** One element of ["useractions"]; every field is a string. *)
Record UserAction : Type := mkUserAction {
  action : string;
  username : string;
  newusername : string;
  loginDisabled : string;
  givenName : string;
  sn : string
}.

(** ** The monad of the script: state and exceptions *)

Definition M (A : Type) : Type := World -> outcome A * World.

Definition ret {A} (a : A) : M A := fun w => (Ok a, w).

Definition raise {A} (e : exn) : M A := fun w => (Raise e, w).

Definition bind {A B} (m : M A) (k : A -> M B) : M B :=
  fun w =>
    match m w with
    | (Ok a, w') => k a w'
    | (Raise e, w') => (Raise e, w')
    end.

Notation "x <- m ;; k" := (bind m (fun x => k))
  (at level 61, m at next level, right associativity).
Notation "m ;;; k" := (bind m (fun _ => k))
  (at level 61, right associativity).

(** [try: body except Exception as e: handler e] *)
Definition try_except {A} (body : M A) (handler : exn -> M A) : M A :=
  fun w =>
    match body w with
    | (Ok a, w') => (Ok a, w')
    | (Raise e, w') => handler e w'
    end.

Definition lift {A} (o : outcome A) : M A := fun w => (o, w).

Definition print (line : string) : M unit :=
  fun w => (Ok tt, mkWorld (calls w) (issued w) (stdout w ++ [line])
                           (zoom_log w) (out_rows w)).

Definition logging (lvl : Level) (msg : string) : M unit :=
  fun w => (Ok tt, mkWorld (calls w) (issued w) (stdout w)
                           (zoom_log w ++ [(lvl, msg)]) (out_rows w)).

Definition writerow (row : list string) : M unit :=
  fun w => (Ok tt, mkWorld (calls w) (issued w) (stdout w)
                           (zoom_log w) (out_rows w ++ [row])).

(** ** The script *)

Section Script.

Variable py : PyRuntime.
Variable net : Remote.

(** *** Token issuer and API client *)

(** [generateToken()]: signs a token; the call may raise. *)
Definition generateToken : M string :=
  fun w =>
    (jwt_encode net (issued w),
     mkWorld (calls w) (S (issued w)) (stdout w) (zoom_log w) (out_rows w)).

(** The [headers] dictionary every caller builds. *)
Definition make_headers (token : string) : list (string * string) :=
  [("authorization", "Bearer " ++ token);
   ("content-type", "application/json")].

(** [requests.get/patch/put/delete]: record the request, ask the transport. *)
Definition request (r : Request) : M Response :=
  fun w =>
    (send net (calls w) r,
     mkWorld (calls w ++ [r]) (issued w) (stdout w) (zoom_log w) (out_rows w)).

Definition requests_get (u : string) (h : list (string * string)) :=
  request (mkRequest GET u None h).
Definition requests_patch (u : string) (body : list (string * string))
  (h : list (string * string)) :=
  request (mkRequest PATCH u (Some body) h).
Definition requests_put (u : string) (body : list (string * string))
  (h : list (string * string)) :=
  request (mkRequest PUT u (Some body) h).
Definition requests_delete (u : string) (h : list (string * string)) :=
  request (mkRequest DELETE u None h).

Definition users_url : string := "https://api.zoom.us/v2/users/".

(** *** User resolver *)

(** The body of the [try] of [findUserId]: either binds [id] ([Next]) or
    executes [return False]. *)
Definition findUserId_try (upn : string) (hdrs : list (string * string))
  : M (flow idval idval) :=
  response <- requests_get (users_url ++ upn) hdrs ;;
  if status_code response =? 200 then
    let data := text response in
    (* [upn not in data]: the byte string [upn] is decoded first *)
    if negb (Py.is_ascii upn) then raise UnicodeDecodeError
    else if negb (Py.contains upn data) then ret (Return IdFalse)
    else
      data <- lift (str_unicode data) ;;
      let data := Py.split "," data in
      let id_lst := Py.split ":" (nth 0 data EmptyString) in
      if (nth 0 id_lst EmptyString =? "{" ++ Py.quoted "id")%string then
        match nth_error id_lst 1 with
        | Some id => ret (Next (IdStr (Py.remove Py.dquote id)))
        | None => raise IndexError
        end
      else ret (Next IdFalse)
  else if status_code response =? 404 then ret (Next IdFalse)
  else
    print "ERROR: Zoom service did not respond correctly" ;;;
    logging ERROR ("Zoom service returned: "
                   ++ Py.str_int (status_code response)) ;;;
    ret (Next IdFalse).

(** [findUserId(upn)].  The token is signed before the [try].  The
    [except] clause prints and logs but binds nothing to [id], so the
    final [return id] finds the local unbound. *)
Definition findUserId (upn : string) : M idval :=
  token <- generateToken ;;
  let hdrs := make_headers token in
  c <- try_except
         (c <- findUserId_try upn hdrs ;;
          ret (match c with
               | Next id => Next (Some id)
               | Return r => Return r
               end))
         (fun e =>
            print ("ERROR: problem with user search in Zoom: "
                   ++ str_exn py e) ;;;
            logging ERROR ("problem searching for " ++ upn ++ " in Zoom: "
                           ++ str_exn py e) ;;;
            ret (Next None)) ;;
  match c with
  | Return r => ret r
  | Next (Some id) => ret id
  | Next None => raise (UnboundLocalError "id")
  end.

(** *** update *)

Section Update.

Variables username newusername loginDisabled givenName sn : string.

(** [params[_item]] *)
Definition params (p : Param) : string :=
  match p with
  | p_username => username
  | p_newusername => newusername
  | p_loginDisabled => loginDisabled
  | p_givenName => givenName
  | p_sn => sn
  end.

(** The loop over [locals()]: returns at the first empty value. *)
Fixpoint update_check (items : list Param) : M (flow string unit) :=
  match items with
  | [] => ret (Next tt)
  | _item :: rest =>
      if (params _item =? "")%string then
        print ("ERROR: unable to update user " ++ username ++ " because "
               ++ param_name _item ++ " is missing a value") ;;;
        logging ERROR ("unable to update user " ++ username ++ " because "
                       ++ param_name _item ++ " is missing a value") ;;;
        ret (Return ("ERROR: Missing an expected input value for "
                     ++ param_name _item ++ " in input file."))
      else update_check rest
  end.

Definition upn : string := username ++ "@" ++ "xyz.com".
Definition upnew : string := newusername ++ "@" ++ "xyz.com".

(** The value of [result] after the status check of the rename. *)
Definition rename_result (response : Response) : M string :=
  if negb (status_code response =? 204) then
    logging ERROR ("user " ++ upn ++ " was not renamed in Zoom") ;;;
    print ("ERROR: Could not rename user in Zoom: " ++ upn) ;;;
    ret "ERROR: could not rename Zoom user."
  else
    logging INFO ("user renamed in Zoom: " ++ username) ;;;
    print ("SUCCESS: User " ++ username ++ " renamed in Zoom") ;;;
    ret "SUCCESS: user was renamed in Zoom.".

(** The [try] of the rename: the name is checked, then two calls are
    made; [response] is rebound by the second call before it is read. *)
Definition update_rename_try (id : idval) : M (flow string string) :=
  taken <- findUserId upnew ;;
  if truthy taken then
    print ("ERROR: cannot rename user - user already exists: "
           ++ newusername) ;;;
    logging ERROR ("cannot rename user - user already exists: "
                   ++ newusername) ;;;
    ret (Return "ERROR: username already taken!")
  else
    token <- generateToken ;;
    let hdrs := make_headers token in
    let payload := [("first_name", givenName); ("last_name", sn)] in
    response <- requests_patch (users_url ++ str_id id) payload hdrs ;;
    let payload := [("email", upnew)] in
    response <- requests_put (users_url ++ str_id id ++ "/email")
                             payload hdrs ;;
    result <- rename_result response ;;
    ret (Next result).

(** [if username != newusername: try: ... except Exception as e: ...];
    [Next None] when the names are equal and [result] stays unbound. *)
Definition update_rename (id : idval) : M (flow string (option string)) :=
  if negb (username =? newusername)%string then
    try_except
      (c <- update_rename_try id ;;
       ret (match c with
            | Next r => Next (Some r)
            | Return r => Return r
            end))
      (fun e =>
         print ("ERROR: Could not rename user in Zoom: " ++ str_exn py e) ;;;
         logging ERROR ("Zoom user rename failed for: " ++ username
                        ++ ": " ++ str_exn py e) ;;;
         ret (Return "ERROR: Could not rename Zoom user."))
  else ret (Next None).

(** User type 1 - basic, 2 - licensed *)
Definition license_type : string :=
  if (loginDisabled =? "True")%string then "1" else "2".

(** The license step, to the end of the function. *)
Definition update_license (id : idval) : M string :=
  let type := license_type in
  try_except
    (token <- generateToken ;;
     let hdrs := make_headers token in
     let payload := [("type", type)] in
     response <- requests_patch (users_url ++ str_id id) payload hdrs ;;
     if negb (status_code response =? 204) then
       logging ERROR ("user " ++ upn ++ " was not updated in Zoom") ;;;
       print ("ERROR: Could not update user in Zoom: " ++ upn) ;;;
       ret "ERROR: could not update Zoom user."
     else
       logging INFO ("user updated in Zoom: " ++ username) ;;;
       print ("SUCCESS: User " ++ username ++ " updated in Zoom") ;;;
       ret "SUCCESS: user was updated in Zoom.")
    (fun e =>
       print ("ERROR: Could not update user in Zoom: " ++ str_exn py e) ;;;
       logging ERROR ("Zoom update failed for: " ++ username ++ ": "
                      ++ str_exn py e) ;;;
       ret "ERROR: Could not update Zoom user.").

(** [update(username, newusername, loginDisabled, givenName, sn)] *)
Definition update : M string :=
  c <- update_check (locals_order py) ;;
  match c with
  | Return r => ret r
  | Next _ =>
      id <- findUserId upn ;;
      if negb (truthy id) then
        print ("ERROR: user does not exist in Zoom: " ++ username) ;;;
        logging ERROR ("user does not exist in Zoom: " ++ username) ;;;
        ret "ERROR: user could not be found in Zoom!"
      else
        c <- update_rename id ;;
        match c with
        | Return r => ret r
        | Next _ => update_license id
        end
  end.

End Update.

(** *** delete *)

(** [delete(username)] *)
Definition delete (username : string) : M string :=
  if (username =? "")%string then
    print ("ERROR: unable to delete user because username argument "
           ++ "is missing a value") ;;;
    logging ERROR ("unable to delete user because username argument "
                   ++ "is missing a value") ;;;
    ret ("ERROR: Missing an expected input value for username "
         ++ "in input file.")
  else
    let upn := username ++ "@" ++ "xyz.com" in
    id <- findUserId upn ;;
    if negb (truthy id) then
      print ("ERROR: user does not exist in Zoom: " ++ username) ;;;
      logging ERROR ("user does not exist in Zoom: " ++ username) ;;;
      ret "ERROR: user could not be found in Zoom!"
    else
      try_except
        (token <- generateToken ;;
         let hdrs := make_headers token in
         response <- requests_delete (users_url ++ str_id id) hdrs ;;
         if negb (status_code response =? 204) then
           logging ERROR ("user was not deleted in Zoom: " ++ username) ;;;
           print ("ERROR: User " ++ username ++ " was not deleted in Zoom") ;;;
           ret "ERROR: could not delete user in Zoom."
         else
           logging INFO ("user deleted in Zoom: " ++ username) ;;;
           print ("SUCCESS: User " ++ username ++ " deleted in Zoom") ;;;
           ret "SUCCESS: user deleted in Zoom.")
        (fun e =>
           print ("ERROR: unknown error while deleting user: "
                  ++ str_exn py e) ;;;
           logging ERROR ("unknown error while deleting user " ++ username
                          ++ ": " ++ str_exn py e) ;;;
           ret "ERROR: Could not delete Zoom user.").

(** *** listusers *)

(** [o[key]] on a decoded value. *)
Definition subscript (o : pyobj) (key : string) : outcome pyobj :=
  match o with
  | PyDict kvs =>
      match find (fun kv => (fst kv =? key)%string) kvs with
      | Some kv => Ok (snd kv)
      | None => Raise (KeyError key)
      end
  | _ => Raise (TypeError "subscript")
  end.

(** The values [for user in o] goes through. *)
Definition py_iter (o : pyobj) : outcome (list pyobj) :=
  match o with
  | PyList l => Ok l
  | PyDict kvs => Ok (map (fun kv => PyStr (fst kv)) kvs)
  | PyStr s => Ok (map (fun c => PyStr (String c EmptyString))
                       (list_ascii_of_string s))
  | _ => Raise (TypeError "iter")
  end.

(** An item [u','.join] accepts. *)
Definition as_str (o : pyobj) : outcome string :=
  match o with
  | PyStr s => Ok s
  | _ => Raise (TypeError "join")
  end.

(** An operand of [-]. *)
Definition as_int (o : pyobj) : outcome Z :=
  match o with
  | PyInt n => Ok n
  | PyBool b => Ok (if b then 1 else 0)
  | _ => Raise (TypeError "sub")
  end.

Definition obind {A B} (o : outcome A) (k : A -> outcome B) : outcome B :=
  match o with
  | Ok a => k a
  | Raise e => Raise e
  end.

(** [str(v)] on a decoded value: a unicode string goes through the ASCII
    codec, any other value is rendered by the runtime. *)
Definition str_value (v : pyobj) : outcome string :=
  match v with
  | PyStr s => if Py.is_ascii s then Ok (py_str py v)
               else Raise UnicodeEncodeError
  | _ => Ok (py_str py v)
  end.

(** The line printed for one user: the tuple is built left to right,
    then joined. *)
Definition user_line (user : pyobj) : outcome string :=
  obind (subscript user "id") (fun id =>
  obind (subscript user "first_name") (fun first_name =>
  obind (subscript user "last_name") (fun last_name =>
  obind (subscript user "email") (fun email =>
  obind (subscript user "type") (fun type =>
  obind (str_value type) (fun type =>
  obind (subscript user "status") (fun status =>
  obind (as_str id) (fun id =>
  obind (as_str first_name) (fun first_name =>
  obind (as_str last_name) (fun last_name =>
  obind (as_str email) (fun email =>
  obind (as_str status) (fun status =>
  Ok (Py.join "," [id; first_name; last_name; email;
                   type; status]))))))))))))).

(** [for user in users: print(...)] *)
Fixpoint print_users (users : list pyobj) : M unit :=
  match users with
  | [] => ret tt
  | user :: rest =>
      line <- lift (user_line user) ;;
      print line ;;;
      print_users rest
  end.

(** [jsondata['page_count'] - jsondata['page_number']] *)
Definition pages_left (jsondata : pyobj) : outcome Z :=
  obind (subscript jsondata "page_count") (fun page_count =>
  obind (subscript jsondata "page_number") (fun page_number =>
  obind (as_int page_count) (fun c =>
  obind (as_int page_number) (fun n =>
  Ok (c - n))))).

Definition list_header : string := "id,first_name,last_name,email,type,status".

(** The [else] branch of the loop body, for a 200 response: prints the
    page and returns the new [PagesLeft]. *)
Definition list_page (currentPage : Z) (response : Response) : M Z :=
  let data := text response in
  jsondata <- lift (json_loads py data) ;;
  (if currentPage =? 1 then print list_header else ret tt) ;;;
  users <- lift (obind (subscript jsondata "users") py_iter) ;;
  print_users users ;;;
  lift (pages_left jsondata).

Definition page_url (currentPage : Z) : string :=
  "https://api.zoom.us/v2/users?page_size=300"
  ++ "&page_number=" ++ Py.str_int currentPage.

(** [while PagesLeft: ...], with the variables it updates.  [None]: the
    fuel ran out before the loop ended. *)
Fixpoint list_while (fuel : nat) (hdrs : list (string * string))
  (currentPage PagesLeft : Z) (result : option string) (w : World)
  : option (outcome (option string) * World) :=
  if PagesLeft =? 0 then Some (Ok result, w)
  else
    match fuel with
    | O => None
    | S fuel' =>
        match requests_get (page_url currentPage) hdrs w with
        | (Raise e, w1) => Some (Raise e, w1)
        | (Ok response, w1) =>
            if negb (status_code response =? 200) then
              Some ((logging ERROR "did not get list of Zoom users" ;;;
                     print "ERROR: did not get list of Zoom users" ;;;
                     ret (Some "ERROR: did not get list of Zoom users.")) w1)
            else
              match list_page currentPage response w1 with
              | (Raise e, w2) => Some (Raise e, w2)
              | (Ok PagesLeft', w2) =>
                  let w3 := snd (logging INFO "got the list of Zoom users" w2) in
                  list_while fuel' hdrs (currentPage + 1) PagesLeft'
                    (Some "SUCCESS: got the list of Zoom users.") w3
              end
        end
    end.

(** The body of the [try] of [listusers]. *)
Definition listusers_try (fuel : nat) (w : World)
  : option (outcome (option string) * World) :=
  match generateToken w with
  | (Raise e, w1) => Some (Raise e, w1)
  | (Ok token, w1) => list_while fuel (make_headers token) 1 1 None w1
  end.

(** [listusers()] *)
Definition listusers (fuel : nat) (w : World)
  : option (outcome string * World) :=
  match listusers_try fuel w with
  | None => None
  | Some (Ok (Some result), w1) => Some (Ok result, w1)
  | Some (Ok None, w1) => Some (Raise (UnboundLocalError "result"), w1)
  | Some (Raise e, w1) =>
      Some ((print ("ERROR: unknown error while getting the list of "
                    ++ "Zoom users: " ++ str_exn py e) ;;;
             logging ERROR ("unknown error while getting the list of "
                            ++ "Zoom users: " ++ str_exn py e) ;;;
             ret "ERROR: Could not get the list of Zoom users.") w1)
  end.

(** *** Batch runner *)

(** The body of [for row in reader["useractions"]] up to the assignment
    of [result].  The fields of a row are unicode strings: the arguments of
    the handlers go through [str], left to right, and the action of an
    unrecognized row through [format] into a byte string. *)
Definition dispatch (fuel : nat) (row : UserAction) (w : World)
  : option (outcome string * World) :=
  if (action row =? "update")%string then
    Some ((username <- lift (str_unicode (username row)) ;;
           newusername <- lift (str_unicode (newusername row)) ;;
           loginDisabled <- lift (str_unicode (loginDisabled row)) ;;
           givenName <- lift (str_unicode (givenName row)) ;;
           sn <- lift (str_unicode (sn row)) ;;
           update username newusername loginDisabled givenName sn) w)
  else if (action row =? "delete")%string then
    Some ((username <- lift (str_unicode (username row)) ;;
           delete username) w)
  else if (action row =? "listusers")%string then
    listusers fuel w
  else
    Some ((name <- lift (str_unicode (action row)) ;;
           print ("ERROR: unrecognized action: " ++ name) ;;;
           name <- lift (str_unicode (action row)) ;;
           logging ERROR ("unrecognized action: " ++ name) ;;;
           ret "ERROR: Unrecognized action.") w).

(** [writer.writerow([row["action"], row["username"], result])]: the csv
    writer converts the two unicode fields with [str] before it writes
    anything; [result] is a byte string already. *)
Definition write_result (row : UserAction) (result : string) : M unit :=
  action <- lift (str_unicode (action row)) ;;
  username <- lift (str_unicode (username row)) ;;
  writerow [action; username; result].

(** The [for] loop of [main]: an exception leaves the loop. *)
Fixpoint process (fuel : nat) (rows : list UserAction) (w : World)
  : option (outcome unit * World) :=
  match rows with
  | [] => Some (Ok tt, w)
  | row :: rest =>
      match dispatch fuel row w with
      | None => None
      | Some (Raise e, w1) => Some (Raise e, w1)
      | Some (Ok result, w1) =>
          match write_result row result w1 with
          | (Raise e, w2) => Some (Raise e, w2)
          | (Ok _, w2) => process fuel rest w2
          end
      end
  end.

(** The statement of the loop that raised, for the traceback: the branch
    of the row, named by its action, or the [writerow] after it. *)
Fixpoint raised_at (fuel : nat) (rows : list UserAction) (w : World)
  : string :=
  match rows with
  | [] => EmptyString
  | row :: rest =>
      match dispatch fuel row w with
      | Some (Ok result, w1) =>
          match write_result row result w1 with
          | (Raise _, _) => "writerow"
          | (Ok _, w2) => raised_at fuel rest w2
          end
      | _ => action row
      end
  end.

(** [main], from the point where both files are open and the input is
    decoded: [rows] is [reader["useractions"]]. *)
Definition main (in_file out_file : string) (rows : list UserAction)
  (fuel : nat) (w : World) : option (outcome unit * World) :=
  let start :=
    logging INFO ("opened input file: " ++ in_file) ;;;
    logging INFO ("opened output file: " ++ out_file) ;;;
    writerow ["action"; "username"; "result"] in
  let finally :=
    logging INFO ("closed input file: " ++ in_file) ;;;
    logging INFO ("closed output file: " ++ out_file) in
  let w0 := snd (start w) in
  match process fuel rows w0 with
  | None => None
  | Some (Ok _, w1) => Some (finally w1)
  | Some (Raise e, w1) =>
      if is_IOError e then
        Some ((print "ERROR: Unable to open input/output file!" ;;;
               logging CRITICAL ("file not found: " ++ in_file ++ " or "
                                 ++ out_file) ;;;
               finally) w1)
      else
        let fname := traceback_line py (raised_at fuel rows w0) in
        Some ((print ("ERROR: unknown error while processing line '"
                      ++ fname ++ "': " ++ str_exn py e) ;;;
               logging CRITICAL ("unknown error while processing line '"
                                 ++ fname ++ "': " ++ str_exn py e) ;;;
               finally) w1)
  end.

End Script.

(** ** Start-up: the settings file and the two data files *)

(** What importing and reading the settings module can raise. *)
Inductive config_exn : Type :=
| ImportError (msg : string)
| AttributeError (attr : string).

(** The outcome of a start-up step. *)
Inductive started (A : Type) : Type :=
| Started (a : A)
| Failed (e : config_exn).
Arguments Started {A} a.
Arguments Failed {A} e.

(** The two globals [readConfig] sets; [None] while a global is unset. *)
Record Globals : Type := mkGlobals {
  API_KEY : option string;
  API_SEC : option string
}.

(** [s[-3:]] and [s[:-3]] *)
Definition last3 (s : string) : string :=
  String.substring (String.length s - 3) 3 s.
Definition but_last3 (s : string) : string :=
  String.substring 0 (String.length s - 3) s.

(** [module.name] on a module given by its attributes. *)
Definition getattr (module : list (string * string)) (name : string)
  : option string :=
  option_map snd (find (fun kv => (fst kv =? name)%string) module).

Section Startup.

Variable import_module : string -> started (list (string * string)).
Variable str_config_exn : config_exn -> string.

(** The [except] clause of [readConfig]. *)
Definition readConfig_except (e : config_exn) (g : Globals) (w : World)
  : started bool * Globals * World :=
  let w1 := snd (logging ERROR "unable to parse settings file" w) in
  let w2 := snd (print ("ERROR: unable to parse the settings file: "
                        ++ str_config_exn e) w1) in
  (Started false, g, w2).

(** [readConfig(config_file)].  The import is made before the [try]; each
    global is assigned as soon as its attribute is read. *)
Definition readConfig (config_file : string) (g : Globals) (w : World)
  : started bool * Globals * World :=
  let config_file :=
    if (last3 config_file =? ".py")%string then but_last3 config_file
    else config_file in
  match import_module config_file with
  | Failed e => (Failed e, g, w)
  | Started zoomsettings =>
      match getattr zoomsettings "API_KEY" with
      | None => readConfig_except (AttributeError "API_KEY") g w
      | Some key =>
          let g1 := mkGlobals (Some key) (API_SEC g) in
          match getattr zoomsettings "API_SEC" with
          | None => readConfig_except (AttributeError "API_SEC") g1 w
          | Some sec => (Started true, mkGlobals (Some key) (Some sec), w)
          end
      end
  end.

End Startup.

(** What [open(in_file)] and [json.load] find: the file cannot be opened,
    its content does not decode, the decoded value has no ["useractions"],
    or the list of actions. *)
Inductive input_file : Type :=
| Unreadable
| NotJson (e : exn)
| NoActions (e : exn)
| Actions (rows : list UserAction).

Section Files.

Variable py : PyRuntime.
Variable net : Remote.

(** The two [except] clauses of [main], for an exception raised on the
    source line [fname]. *)
Definition main_except (in_file out_file fname : string) (e : exn) : M unit :=
  if is_IOError e then
    print "ERROR: Unable to open input/output file!" ;;;
    logging CRITICAL ("file not found: " ++ in_file ++ " or " ++ out_file)
  else
    print ("ERROR: unknown error while processing line '"
           ++ fname ++ "': " ++ str_exn py e) ;;;
    logging CRITICAL ("unknown error while processing line '"
                      ++ fname ++ "': " ++ str_exn py e).

(** The [except IOError] clause, for a file that did not open. *)
Definition main_except_open (in_file out_file : string) : M unit :=
  print "ERROR: Unable to open input/output file!" ;;;
  logging CRITICAL ("file not found: " ++ in_file ++ " or " ++ out_file).

(** The [try] statement of [main] with its files: [input] is what the
    input file holds and [out_opens] whether the output file opens.  In the
    [finally] clause [f_in] and [f_out] are bound only if their [open]
    returned. *)
Definition main_files (input : input_file) (out_opens : bool)
  (in_file out_file : string) (fuel : nat) (w : World)
  : option (outcome unit * World) :=
  let opened_both :=
    logging INFO ("opened input file: " ++ in_file) ;;;
    logging INFO ("opened output file: " ++ out_file) in
  let close_both :=
    logging INFO ("closed input file: " ++ in_file) ;;;
    logging INFO ("closed output file: " ++ out_file) in
  let out_fails :=
    Some ((logging INFO ("opened input file: " ++ in_file) ;;;
           main_except_open in_file out_file ;;;
           logging INFO ("closed input file: " ++ in_file) ;;;
           raise (UnboundLocalError "f_out")) w) in
  match input with
  | Unreadable =>
      Some ((main_except_open in_file out_file ;;;
             raise (UnboundLocalError "f_in")) w)
  | NotJson e =>
      if out_opens then
        Some ((opened_both ;;;
               main_except in_file out_file "reader = json.load(f_in)" e ;;;
               close_both) w)
      else out_fails
  | NoActions e =>
      if out_opens then
        Some ((opened_both ;;;
               writerow ["action"; "username"; "result"] ;;;
               main_except in_file out_file
                 ("for row in reader[" ++ Py.quoted "useractions" ++ "]:") e ;;;
               close_both) w)
      else out_fails
  | Actions rows =>
      if out_opens then main py net in_file out_file rows fuel w
      else out_fails
  end.

End Files.

(** ** Concrete runtimes and remotes

    Small environments on which the script is run below. *)

Module Scenario.

Definition args_order : list Param :=
  [p_username; p_newusername; p_loginDisabled; p_givenName; p_sn].

Definition show (v : pyobj) : string :=
  match v with
  | PyNone => "None"
  | PyBool b => if b then "True" else "False"
  | PyInt n => Py.str_int n
  | PyStr s => s
  | PyList _ => "[...]"
  | PyDict _ => "{...}"
  end.

Definition message (e : exn) : string :=
  match e with
  | RequestException msg => msg
  | TokenError msg => msg
  | UnboundLocalError var =>
      "local variable '" ++ var ++ "' referenced before assignment"
  | IndexError => "list index out of range"
  | KeyError key => "'" ++ key ++ "'"
  | TypeError what => "unsupported operand: " ++ what
  | ValueError msg => msg
  | UnicodeEncodeError => "'ascii' codec can't encode character"
  | UnicodeDecodeError => "'ascii' codec can't decode byte"
  end.

Definition user (id first last email : string) (type : Z) (status : string)
  : pyobj :=
  PyDict [("id", PyStr id); ("first_name", PyStr first);
          ("last_name", PyStr last); ("email", PyStr email);
          ("type", PyInt type); ("status", PyStr status)].

Definition page (users : list pyobj) (page_count page_number : Z) : pyobj :=
  PyDict [("page_count", PyInt page_count);
          ("page_number", PyInt page_number);
          ("page_size", PyInt 300);
          ("users", PyList users)].

Definition users1 : list pyobj :=
  [user "u1" "Ann" "Lee" "ann@xyz.com" 2 "active";
   user "u2" "Bob" "Ray" "bob@xyz.com" 1 "active"].
Definition users2 : list pyobj :=
  [user "u3" "Cyd" "Poe" "cyd@xyz.com" 2 "pending"].
Definition users3 : list pyobj :=
  [user "u4" "Dee" "Orr" "dee@xyz.com" 1 "active";
   user "u5" "Eve" "Kim" "eve@xyz.com" 2 "inactive"].

(** A decoder that knows four bodies. *)
Definition decode (body : string) : outcome pyobj :=
  if (body =? "page1")%string then Ok (page users1 3 1)
  else if (body =? "page2")%string then Ok (page users2 3 2)
  else if (body =? "page3")%string then Ok (page users3 3 3)
  else if (body =? "empty")%string then Ok (page [] 0 1)
  else Raise (ValueError "No JSON object could be decoded").

Definition runtime : PyRuntime :=
  mkPyRuntime args_order decode show message (fun action => action).

Definition sign (n : nat) : outcome string := Ok "tok".

(** The body of a successful lookup. *)
Definition user_body (id email : string) : string :=
  "{" ++ Py.quoted "id" ++ ":" ++ Py.quoted id ++ ","
  ++ Py.quoted "email" ++ ":" ++ Py.quoted email ++ "}".

(** Every request fails in the transport. *)
Definition net_down : Remote :=
  mkRemote sign (fun _ _ => Raise (RequestException "connection refused")).

(** A directory where old@xyz.com exists (id abc) and, when [taken],
    new@xyz.com too; the name PATCH, the email PUT and the license PATCH
    answer [s_name], [s_email] and [s_license]. *)
Definition net_rename (taken : bool) (s_name s_email s_license : Z)
  : Remote :=
  mkRemote sign (fun _ r =>
    match method r with
    | GET =>
        if (url r =? "https://api.zoom.us/v2/users/old@xyz.com")%string
        then Ok (mkResponse 200 (user_body "abc" "old@xyz.com"))
        else if taken
                && (url r =? "https://api.zoom.us/v2/users/new@xyz.com")%string
        then Ok (mkResponse 200 (user_body "xyz" "new@xyz.com"))
        else Ok (mkResponse 404 "")
    | PATCH =>
        match json r with
        | Some (("type", _) :: _) => Ok (mkResponse s_license "")
        | _ => Ok (mkResponse s_name "")
        end
    | PUT => Ok (mkResponse s_email "")
    | DELETE => Ok (mkResponse 204 "")
    end).

(** Three pages of users; [page_number] echoes the request. *)
Definition net_pages : Remote :=
  mkRemote sign (fun _ r =>
    if (url r =? "https://api.zoom.us/v2/users?page_size=300&page_number=1")%string
    then Ok (mkResponse 200 "page1")
    else if (url r =? "https://api.zoom.us/v2/users?page_size=300&page_number=2")%string
    then Ok (mkResponse 200 "page2")
    else if (url r =? "https://api.zoom.us/v2/users?page_size=300&page_number=3")%string
    then Ok (mkResponse 200 "page3")
    else Ok (mkResponse 404 "")).

(** An account without users: every page reports [page_count = 0]. *)
Definition net_empty : Remote :=
  mkRemote sign (fun _ _ => Ok (mkResponse 200 "empty")).

(** [skip n s]: [s] without its first [n] characters. *)
Fixpoint skip (n : nat) (s : string) : string :=
  match n, s with
  | S n', String _ rest => skip n' rest
  | _, _ => s
  end.

(** The page number at the end of the URL of a page request. *)
Definition page_of (u : string) : Z :=
  match NilZero.int_of_string (skip 55 u) with
  | Some d => Z.of_int d
  | None => 0
  end.

(** An account without users whose pages echo the page number asked
    for: the body of a response is the URL of its request, and decodes to
    an empty page of that number. *)
Definition runtime_echo : PyRuntime :=
  mkPyRuntime args_order (fun body => Ok (page [] 0 (page_of body)))
              show message (fun action => action).

Definition net_echo : Remote :=
  mkRemote sign (fun _ r => Ok (mkResponse 200 (url r))).

(** The lines of the three pages of [net_pages]. *)
Definition page_lines (n : Z) : list string :=
  if n =? 1 then ["u1,Ann,Lee,ann@xyz.com,2,active";
                  "u2,Bob,Ray,bob@xyz.com,1,active"]
  else if n =? 2 then ["u3,Cyd,Poe,cyd@xyz.com,2,pending"]
  else ["u4,Dee,Orr,dee@xyz.com,1,active";
        "u5,Eve,Kim,eve@xyz.com,2,inactive"].

(** Every request is answered with one fixed response. *)
Definition net_const (status : Z) (body : string) : Remote :=
  mkRemote sign (fun _ _ => Ok (mkResponse status body)).

Definition rename_old_new : UserAction :=
  mkUserAction "update" "old" "new" "False" "John" "Testuser".

Definition delete_of (name : string) : UserAction :=
  mkUserAction "delete" name name "False" "John" "Testuser".


(** Lookups are answered as by [net_rename false]; every call that
    writes fails in the transport. *)
Definition net_readonly : Remote :=
  mkRemote sign (fun hist r =>
    match method r with
    | GET => send (net_rename false 204 204 204) hist r
    | _ => Raise (RequestException "timed out")
    end).

(** A signer that fails from its [n]-th token on. *)
Definition sign_until (n : nat) (k : nat) : outcome string :=
  if (k <? n)%nat then Ok "tok" else Raise (TokenError "bad secret").

(** [net_rename] with a signer that signs [n] tokens only. *)
Definition net_short (n : nat) : Remote :=
  mkRemote (sign_until n) (send (net_rename false 204 204 204)).

(** The settings modules that can be imported: a complete one and one
    without its secret. *)
Definition import_settings (name : string)
  : started (list (string * string)) :=
  if (name =? "zoom_settings")%string
  then Started [("API_KEY", "key1"); ("API_SEC", "secret1")]
  else if (name =? "half_settings")%string
  then Started [("API_KEY", "key2")]
  else Failed (ImportError ("No module named " ++ name)).

Definition config_message (e : config_exn) : string :=
  match e with
  | ImportError msg => msg
  | AttributeError attr => "'module' object has no attribute '" ++ attr ++ "'"
  end.

(** An action of an unknown kind. *)
Definition unknown_action (name : string) : UserAction :=
  mkUserAction "create" name name "False" "John" "Testuser".

(** A page whose second user has an id and nothing else, and a decoder
    that returns it for every body. *)
Definition broken_page : pyobj :=
  page [user "u1" "Ann" "Lee" "ann@xyz.com" 2 "active";
        PyDict [("id", PyStr "u9")];
        user "u2" "Bob" "Ray" "bob@xyz.com" 1 "active"] 1 1.

Definition runtime_broken : PyRuntime :=
  mkPyRuntime args_order (fun _ => Ok broken_page) show message
              (fun action => action).

(** A given name with a non-ASCII character (an e with an acute accent),
    and an address made of it. *)
Definition jose : string := "Jos" ++ String "233"%char EmptyString.

Definition jose_address : string := jose ++ "@xyz.com".

End Scenario.

(** ** Vocabulary of the statements *)

(** The requests the handlers send, by purpose. *)
Definition lookup_request (upn token : string) : Request :=
  mkRequest GET (users_url ++ upn) None (make_headers token).

Definition name_patch (id givenName sn token : string) : Request :=
  mkRequest PATCH (users_url ++ id)
    (Some [("first_name", givenName); ("last_name", sn)]) (make_headers token).

Definition email_put (id email token : string) : Request :=
  mkRequest PUT (users_url ++ id ++ "/email")
    (Some [("email", email)]) (make_headers token).

Definition license_patch (id type token : string) : Request :=
  mkRequest PATCH (users_url ++ id) (Some [("type", type)]) (make_headers token).

Definition page_request (n : Z) (token : string) : Request :=
  mkRequest GET (page_url n) None (make_headers token).

(** The world after [sent] more requests, [signed] more tokens, [printed]
    more lines and [logged] more records. *)
Definition after (w : World) (sent : list Request) (signed : nat)
  (printed : list string) (logged : list (Level * string)) : World :=
  mkWorld (calls w ++ sent) (signed + issued w) (stdout w ++ printed)
          (zoom_log w ++ logged) (out_rows w).

(** The world after [lines] more lines were printed. *)
Definition printed (w : World) (lines : list string) : World :=
  mkWorld (calls w) (issued w) (stdout w ++ lines) (zoom_log w) (out_rows w).

(** The data rows of the output file: all rows but the header. *)
Definition data_rows (w : World) : list (list string) := tl (out_rows w).

(** [sends P m]: whatever the world, [m] only adds requests to the trace,
    and every request it adds satisfies [P]. *)
Definition sends (P : Request -> Prop) {A} (m : M A) : Prop :=
  forall w, exists new,
    calls (snd (m w)) = (calls w ++ new)%list /\ Forall P new.

(** The value of the ["type"] field of the JSON body of a request. *)
Definition type_field (r : Request) : option string :=
  match json r with
  | Some kvs =>
      option_map snd (find (fun kv => (fst kv =? "type")%string) kvs)
  | None => None
  end.

(** [resp] is a 200 response whose body decodes to a page that reports
    [page_count] and [page_number] and whose users print as [lines], one
    line per user, in order. *)
Definition reports (py : PyRuntime) (resp : Response)
  (page_count page_number : Z) (lines : list string) : Prop :=
  status_code resp = 200 /\
  exists doc users,
    json_loads py (text resp) = Ok doc /\
    subscript doc "page_count" = Ok (PyInt page_count) /\
    subscript doc "page_number" = Ok (PyInt page_number) /\
    obind (subscript doc "users") py_iter = Ok users /\
    Forall2 (fun user line => user_line py user = Ok line) users lines.

(** The row [main] writes for an action and its result. *)
Definition row_of (row : UserAction) (result : string) : list string :=
  [action row; username row; result].

(** Every field of [row] is ASCII: each [str] of [main] and the csv
    writer can convert it. *)
Definition ascii_row (row : UserAction) : bool :=
  Py.is_ascii (action row) && Py.is_ascii (username row)
  && Py.is_ascii (newusername row) && Py.is_ascii (loginDisabled row)
  && Py.is_ascii (givenName row) && Py.is_ascii (sn row).

(** The page numbers [first], [first + 1], ... ([k] of them). *)
Definition pages_from (first : Z) (k : nat) : list Z :=
  map (fun i => first + Z.of_nat i) (seq 0 k).

(** [keeps f m]: [m] leaves the component [f] of the world as it was. *)
Definition keeps {X A} (f : World -> X) (m : M A) : Prop :=
  forall w, f (snd (m w)) = f w.

(** [c] does not occur in [s]. *)
Fixpoint char_free (c : ascii) (s : string) : bool :=
  match s with
  | EmptyString => true
  | String a rest => negb (Ascii.eqb a c) && char_free c rest
  end.

(** [safe m]: [m] never raises. *)
Definition safe {A} (m : M A) : Prop :=
  forall w e, fst (m w) <> Raise e.

(** The DELETE request of [delete]. *)
Definition delete_request (id token : string) : Request :=
  mkRequest DELETE (users_url ++ id) None (make_headers token).


(** ** Proof tools *)

Ltac msimpl :=
  cbv beta iota delta [bind ret raise lift try_except print logging writerow
    generateToken requests_get requests_patch requests_put requests_delete
    request] in *;
  cbn [calls issued stdout zoom_log out_rows fst snd] in *.

Ltac inv H := inversion H; subst; clear H.

Ltac break_match :=
  match goal with
  | H : context [match ?x with _ => _ end] |- _ => destruct x eqn:?
  | |- context [match ?x with _ => _ end] => destruct x eqn:?
  end.

Ltac crunch :=
  repeat (msimpl;
          match goal with
          | H : (_, _) = (_, _) |- _ => inv H
          | H : Ok _ = Ok _ |- _ => inv H
          | H : Raise _ = Raise _ |- _ => inv H
          | H : Next _ = Next _ |- _ => inv H
          | H : Return _ = Return _ |- _ => inv H
          | H : Some _ = Some _ |- _ => inv H
          | H : Ok _ = Raise _ |- _ => discriminate H
          | H : Raise _ = Ok _ |- _ => discriminate H
          | H : Next _ = Return _ |- _ => discriminate H
          | H : Return _ = Next _ |- _ => discriminate H
          | H : Some _ = None |- _ => discriminate H
          | H : None = Some _ |- _ => discriminate H
          | _ => break_match
          end).

(** ** The resolver *)

Section Resolver.

Variable py : PyRuntime.
Variable net : Remote.

(** A lookup whose token cannot be signed raises before any request. *)
Lemma findUserId_unsigned upn w e :
  jwt_encode net (issued w) = Raise e ->
  findUserId py net upn w = (Raise e, after w [] 1 [] []).
Proof.
  intros H. unfold findUserId, after. msimpl. rewrite H.
  now rewrite !app_nil_r.
Qed.

(** A lookup sends at most one request, the GET of the address. *)
Lemma findUserId_sent upn w o w' :
  findUserId py net upn w = (o, w') ->
  issued w' = S (issued w) /\
  ((exists e, jwt_encode net (issued w) = Raise e /\ o = Raise e
              /\ calls w' = calls w)
   \/ (exists tok, jwt_encode net (issued w) = Ok tok
                   /\ calls w' = (calls w ++ [lookup_request upn tok])%list)).
Proof.
  unfold findUserId, findUserId_try. intros H.
  destruct (jwt_encode net (issued w)) as [tok|e] eqn:Htok.
  - assert (issued w' = S (issued w)
            /\ calls w' = (calls w ++ [lookup_request upn tok])%list)
      as [Hi Hc] by (crunch; split; reflexivity).
    split; [exact Hi|]. right. exists tok. auto.
  - crunch. split; [reflexivity|]. left. eexists. eauto.
Qed.

(** When the transport raises, the [except] clause reports the problem
    and the [return id] after it raises in turn. *)
Lemma findUserId_transport_raises upn w tok e :
  jwt_encode net (issued w) = Ok tok ->
  send net (calls w) (lookup_request upn tok) = Raise e ->
  findUserId py net upn w =
    (Raise (UnboundLocalError "id"),
     after w [lookup_request upn tok] 1
       ["ERROR: problem with user search in Zoom: " ++ str_exn py e]
       [(ERROR, "problem searching for " ++ upn ++ " in Zoom: "
                ++ str_exn py e)]).
Proof.
  intros Ht Hs. unfold findUserId, findUserId_try, after, lookup_request in *.
  msimpl. rewrite Ht. msimpl. rewrite Hs. reflexivity.
Qed.

(** A string found in an ASCII string is ASCII. *)
Lemma prefix_ascii needle : forall hay,
  String.prefix needle hay = true ->
  Py.is_ascii hay = true -> Py.is_ascii needle = true.
Proof.
  induction needle as [|a needle IH]; intros hay Hp Hh; [reflexivity|].
  destruct hay as [|b hay]; cbn [String.prefix] in Hp; [discriminate Hp|].
  destruct (ascii_dec a b) as [->|_]; [|discriminate Hp].
  destruct b as [b0 b1 b2 b3 b4 b5 b6 high]. cbn [Py.is_ascii] in *.
  apply andb_prop in Hh. destruct Hh as [-> Hh]. exact (IH _ Hp Hh).
Qed.

Lemma contains_ascii needle hay :
  Py.contains needle hay = true ->
  Py.is_ascii hay = true -> Py.is_ascii needle = true.
Proof.
  induction hay as [|b hay IH]; cbn [Py.contains]; intros Hc Hh.
  - rewrite orb_false_r in Hc. exact (prefix_ascii _ _ Hc Hh).
  - apply orb_prop in Hc. destruct Hc as [Hc|Hc].
    + exact (prefix_ascii _ _ Hc Hh).
    + apply IH; [exact Hc|].
      destruct b as [b0 b1 b2 b3 b4 b5 b6 high]. cbn [Py.is_ascii] in Hh.
      apply andb_prop in Hh. exact (proj2 Hh).
Qed.

(** C10. The resolver returns an id only on a 200 response whose body
    contains the address and whose first field is the id, and then it is
    that field without its quotes; it returns [False] on a 404 response,
    on a 200 response whose body does not contain the address, and on any
    other status, where it also prints and logs a service error.  On a 200
    response the address, a byte string, meets the body, a unicode string:
    the address is ASCII (the handlers build it from arguments that went
    through [str]), and the id is parsed from a body that is ASCII. *)
Theorem findUserId_resolves upn w :
  (forall s w',
      findUserId py net upn w = (Ok (IdStr s), w') ->
      exists tok resp id,
        jwt_encode net (issued w) = Ok tok /\
        send net (calls w) (lookup_request upn tok) = Ok resp /\
        status_code resp = 200 /\
        Py.is_ascii upn = true /\
        Py.contains upn (text resp) = true /\
        Py.is_ascii (text resp) = true /\
        let id_lst := Py.split ":" (nth 0 (Py.split "," (text resp)) "") in
        nth 0 id_lst "" = "{" ++ Py.quoted "id" /\
        nth_error id_lst 1 = Some id /\
        s = Py.remove Py.dquote id)
  /\ (forall tok resp,
         jwt_encode net (issued w) = Ok tok ->
         send net (calls w) (lookup_request upn tok) = Ok resp ->
         let quiet := after w [lookup_request upn tok] 1 [] [] in
         let id_lst := Py.split ":" (nth 0 (Py.split "," (text resp)) "") in
         (forall id,
             status_code resp = 200 ->
             Py.contains upn (text resp) = true ->
             Py.is_ascii (text resp) = true ->
             nth 0 id_lst "" = "{" ++ Py.quoted "id" ->
             nth_error id_lst 1 = Some id ->
             findUserId py net upn w
             = (Ok (IdStr (Py.remove Py.dquote id)), quiet))
         /\ (status_code resp = 404 ->
             findUserId py net upn w = (Ok IdFalse, quiet))
         /\ (status_code resp = 200 ->
             Py.is_ascii upn = true ->
             Py.contains upn (text resp) = false ->
             findUserId py net upn w = (Ok IdFalse, quiet))
         /\ (status_code resp <> 200 ->
             status_code resp <> 404 ->
             findUserId py net upn w
             = (Ok IdFalse,
                after w [lookup_request upn tok] 1
                  ["ERROR: Zoom service did not respond correctly"]
                  [(ERROR, "Zoom service returned: "
                           ++ Py.str_int (status_code resp))]))).
Proof.
  split.
  - intros s w' H.
    unfold findUserId, findUserId_try, str_unicode in H.
    fold (lookup_request upn) in H. msimpl.
    destruct (jwt_encode net (issued w)) as [tok|e] eqn:Ht; [|discriminate].
    msimpl. fold (lookup_request upn tok) in H.
    destruct (send net (calls w) (lookup_request upn tok)) as [resp|e] eqn:Hs;
      [|discriminate].
    exists tok, resp.
    destruct (status_code resp =? 200) eqn:H200.
    + destruct (Py.is_ascii upn) eqn:Hupn; cbn [negb] in H; [|discriminate].
      destruct (Py.contains upn (text resp)) eqn:Hin;
        [|discriminate]. cbn [negb] in H.
      destruct (Py.is_ascii (text resp)) eqn:Hbody; msimpl; [|discriminate].
      destruct (nth 0 (Py.split ":" (nth 0 (Py.split "," (text resp)) "")) ""
                =? "{" ++ Py.quoted "id")%string eqn:Hkey;
        [|discriminate].
      destruct (nth_error
                  (Py.split ":" (nth 0 (Py.split "," (text resp)) "")) 1)
        as [id|] eqn:Hid; [|discriminate].
      inv H. exists id.
      apply Z.eqb_eq in H200. apply String.eqb_eq in Hkey. cbv zeta.
      repeat (split; [assumption || reflexivity|]). reflexivity.
    + destruct (status_code resp =? 404); discriminate.
  - intros tok resp Ht Hs quiet id_lst. subst quiet id_lst.
    unfold findUserId, findUserId_try, str_unicode, after.
    fold (lookup_request upn).
    msimpl. rewrite Ht. msimpl. fold (lookup_request upn tok). rewrite Hs.
    rewrite !app_nil_r.
    split; [|split; [|split]].
    + intros id H200 Hin Hbody Hkey Hid.
      pose proof (contains_ascii _ _ Hin Hbody) as Hupn.
      apply Z.eqb_eq in H200. apply String.eqb_eq in Hkey.
      rewrite H200, Hupn, Hin, Hbody. cbn [negb]. msimpl.
      rewrite Hkey, Hid. reflexivity.
    + intros H404. rewrite H404. reflexivity.
    + intros H200 Hupn Hin. rewrite H200, Hupn, Hin. reflexivity.
    + intros H200 H404.
      apply Z.eqb_neq in H200. apply Z.eqb_neq in H404.
      rewrite H200, H404. reflexivity.
Qed.

End Resolver.

(** ** What a computation sends *)

Section Sends.

Variable P : Request -> Prop.

Lemma sends_silent {A} (m : M A) :
  (forall w, calls (snd (m w)) = calls w) -> sends P m.
Proof.
  intros H w. exists []. rewrite app_nil_r. split; [apply H|constructor].
Qed.

Lemma sends_ret {A} (a : A) : sends P (ret a).
Proof. now apply sends_silent. Qed.

Lemma sends_raise {A} e : sends P (@raise A e).
Proof. now apply sends_silent. Qed.

Lemma sends_lift {A} (o : outcome A) : sends P (lift o).
Proof. now apply sends_silent. Qed.

Lemma sends_print line : sends P (print line).
Proof. now apply sends_silent. Qed.

Lemma sends_logging lvl msg : sends P (logging lvl msg).
Proof. now apply sends_silent. Qed.

Lemma sends_generateToken net : sends P (generateToken net).
Proof. now apply sends_silent. Qed.

Lemma sends_request net r : P r -> sends P (request net r).
Proof.
  intros H w. exists [r]. split; [reflexivity|]. now repeat constructor.
Qed.

Lemma sends_bind {A B} (m : M A) (k : A -> M B) :
  sends P m -> (forall a, sends P (k a)) -> sends P (bind m k).
Proof.
  intros Hm Hk w. unfold bind. destruct (Hm w) as [n1 [E1 F1]].
  destruct (m w) as [[a|e] w1]; cbn [snd] in *.
  - destruct (Hk a w1) as [n2 [E2 F2]]. exists (n1 ++ n2)%list.
    rewrite E2, E1, app_assoc. split; [reflexivity|].
    apply Forall_app; auto.
  - exists n1. auto.
Qed.

Lemma sends_try_except {A} (body : M A) (handler : exn -> M A) :
  sends P body -> (forall e, sends P (handler e)) ->
  sends P (try_except body handler).
Proof.
  intros Hm Hk w. unfold try_except. destruct (Hm w) as [n1 [E1 F1]].
  destruct (body w) as [[a|e] w1]; cbn [snd] in *.
  - exists n1. auto.
  - destruct (Hk e w1) as [n2 [E2 F2]]. exists (n1 ++ n2)%list.
    rewrite E2, E1, app_assoc. split; [reflexivity|].
    apply Forall_app; auto.
Qed.

End Sends.

(** Syntax-directed proof of a [sends] goal; leaves the side conditions on
    the requests. *)
Ltac sends_step :=
  match goal with
  | |- sends _ (bind _ _) => apply sends_bind; [|intros]
  | |- sends _ (try_except _ _) => apply sends_try_except; [|intros]
  | |- sends _ (ret _) => apply sends_ret
  | |- sends _ (raise _) => apply sends_raise
  | |- sends _ (lift _) => apply sends_lift
  | |- sends _ (print _) => apply sends_print
  | |- sends _ (logging _ _) => apply sends_logging
  | |- sends _ (generateToken _) => apply sends_generateToken
  | |- sends _ (requests_get _ _ _) => apply sends_request
  | |- sends _ (requests_patch _ _ _ _) => apply sends_request
  | |- sends _ (requests_put _ _ _ _) => apply sends_request
  | |- sends _ (requests_delete _ _ _) => apply sends_request
  | |- sends _ (if ?b then _ else _) => destruct b
  | |- sends _ (match ?x with _ => _ end) => destruct x
  end.


(** ** update *)

Section UpdateProofs.

Variable py : PyRuntime.
Variable net : Remote.
Variables u nu ld gn s : string.

Lemma findUserId_sends P upn :
  (forall r, json r = None -> P r) -> sends P (findUserId py net upn).
Proof.
  intros HP. unfold findUserId, findUserId_try.
  repeat sends_step; now apply HP.
Qed.

Lemma update_check_sends P items :
  sends P (update_check u nu ld gn s items).
Proof.
  induction items as [|p items IH]; cbn [update_check].
  - apply sends_ret.
  - repeat sends_step. exact IH.
Qed.

(** Validation passes when no field is empty. *)
Lemma update_check_pass items w :
  (forall p, params u nu ld gn s p <> "") ->
  update_check u nu ld gn s items w = (Ok (Next tt), w).
Proof.
  intros H. induction items as [|p items IH]; cbn [update_check].
  - reflexivity.
  - destruct (String.eqb_spec (params u nu ld gn s p) "") as [E|_].
    + now apply H in E.
    + exact IH.
Qed.

(** When the transport fails on the first lookup, the exception of
    [findUserId] leaves update: the call is outside every [try]. *)
Lemma update_lookup_raises w tok e :
  (forall p, params u nu ld gn s p <> "") ->
  jwt_encode net (issued w) = Ok tok ->
  send net (calls w) (lookup_request (upn u) tok) = Raise e ->
  fst (update py net u nu ld gn s w) = Raise (UnboundLocalError "id").
Proof.
  intros Hne Ht Hs. unfold update. msimpl.
  rewrite update_check_pass by exact Hne.
  rewrite (findUserId_transport_raises py net (upn u) w Ht Hs).
  reflexivity.
Qed.

(** Validation stops at the first empty field in the order of
    iteration, having printed and logged only. *)
Lemma update_check_stops items w :
  (exists p, In p items /\ params u nu ld gn s p = "") ->
  exists p w',
    In p items /\ params u nu ld gn s p = "" /\
    update_check u nu ld gn s items w
    = (Ok (Return ("ERROR: Missing an expected input value for "
                   ++ param_name p ++ " in input file.")), w') /\
    calls w' = calls w /\ issued w' = issued w.
Proof.
  induction items as [|q items IH]; intros [p [Hin Hp]].
  - destruct Hin.
  - cbn [update_check].
    destruct (String.eqb_spec (params u nu ld gn s q) "") as [E|N].
    + exists q. eexists. split; [now left|]. split; [exact E|].
      msimpl. split; [reflexivity|]. split; reflexivity.
    + destruct Hin as [->|Hin]; [contradiction|].
      destruct IH as [p' [w' [? [? [? ?]]]]]; [now exists p|].
      exists p', w'. split; [now right|]. auto.
Qed.

(** C5. An update action with an empty field returns the missing-value
    error naming an empty field, and neither signs a token nor sends a
    request. *)
Theorem update_missing_value w :
  (forall p, In p (locals_order py)) ->
  (exists p, params u nu ld gn s p = "") ->
  exists p w',
    params u nu ld gn s p = "" /\
    update py net u nu ld gn s w
    = (Ok ("ERROR: Missing an expected input value for "
           ++ param_name p ++ " in input file."), w') /\
    calls w' = calls w /\ issued w' = issued w.
Proof.
  intros Hall [p Hp].
  destruct (update_check_stops (locals_order py) w) as [q [w' [_ [Hq [E [Hc Hi]]]]]].
  { exists p. auto. }
  exists q, w'. split; [exact Hq|]. split; [|auto].
  unfold update. msimpl. rewrite E. reflexivity.
Qed.

(** C6. When the names differ, the user resolves and the new name
    resolves too, update returns the name-taken error having sent the
    two lookups and nothing else. *)
Theorem update_name_taken w id w1 taken w2 :
  (forall p, params u nu ld gn s p <> "") ->
  u <> nu ->
  findUserId py net (upn u) w = (Ok id, w1) -> truthy id = true ->
  findUserId py net (upnew nu) w1 = (Ok taken, w2) -> truthy taken = true ->
  exists tok1 tok2 w',
    update py net u nu ld gn s w = (Ok "ERROR: username already taken!", w')
    /\ calls w' = (calls w ++ [lookup_request (upn u) tok1;
                               lookup_request (upnew nu) tok2])%list
    /\ issued w' = S (S (issued w)).
Proof.
  intros Hne Hdiff H1 T1 H2 T2.
  destruct (findUserId_sent _ _ _ _ H1) as [I1 [[e [_ [? _]]]|[tok1 [_ C1]]]];
    [discriminate|].
  destruct (findUserId_sent _ _ _ _ H2) as [I2 [[e [_ [? _]]]|[tok2 [_ C2]]]];
    [discriminate|].
  exists tok1, tok2. eexists.
  unfold update, update_rename, update_rename_try. msimpl.
  rewrite update_check_pass by exact Hne.
  rewrite H1, T1. cbn [negb].
  apply String.eqb_neq in Hdiff. rewrite Hdiff. cbn [negb].
  rewrite H2, T2. msimpl.
  split; [reflexivity|]. cbn [calls issued].
  rewrite C2, C1, <- app_assoc, I2, I1. split; reflexivity.
Qed.

(** The rename block: when the new name is free and both calls are
    answered, the PATCH of the names and the PUT of the address are sent
    in this order under one token, and [result] is decided by the status
    of the PUT alone. *)
Lemma update_rename_runs id w taken w2 tok r1 r2 :
  u <> nu ->
  findUserId py net (upnew nu) w = (Ok taken, w2) -> truthy taken = false ->
  jwt_encode net (issued w2) = Ok tok ->
  let patch := name_patch (str_id id) gn s tok in
  let put := email_put (str_id id) (upnew nu) tok in
  send net (calls w2) patch = Ok r1 ->
  send net (calls w2 ++ [patch]) put = Ok r2 ->
  exists w3,
    update_rename py net u nu gn s id w
    = (Ok (Next (Some (if status_code r2 =? 204
                       then "SUCCESS: user was renamed in Zoom."
                       else "ERROR: could not rename Zoom user."))), w3)
    /\ calls w3 = (calls w2 ++ [patch; put])%list
    /\ issued w3 = S (issued w2).
Proof.
  intros Hdiff H2 T2 Ht patch put Hs1 Hs2. subst patch put.
  unfold update_rename, update_rename_try, rename_result,
    name_patch, email_put in *.
  apply String.eqb_neq in Hdiff. rewrite Hdiff. cbn [negb].
  msimpl. rewrite H2, T2. msimpl. rewrite Ht. msimpl. rewrite Hs1.
  msimpl. rewrite Hs2.
  destruct (status_code r2 =? 204); cbn [negb]; msimpl;
    eexists; (split; [reflexivity|]); cbn [calls issued];
    rewrite <- app_assoc; split; reflexivity.
Qed.

(** The license step signs a token and sends one PATCH whose body is the
    type alone. *)
Lemma update_license_runs id w tok :
  jwt_encode net (issued w) = Ok tok ->
  let patch := license_patch (str_id id) (license_type ld) tok in
  exists w',
    snd (update_license py net u ld id w) = w' /\
    calls w' = (calls w ++ [patch])%list /\
    forall r, send net (calls w) patch = Ok r ->
              fst (update_license py net u ld id w)
              = Ok (if status_code r =? 204
                    then "SUCCESS: user was updated in Zoom."
                    else "ERROR: could not update Zoom user.").
Proof.
  intros Ht patch. subst patch. eexists. split; [reflexivity|].
  unfold update_license, license_patch. msimpl. rewrite Ht. msimpl.
  destruct (send net (calls w) _) as [r|e] eqn:Hs.
  - destruct (status_code r =? 204) eqn:E; cbn [negb]; msimpl;
      (split; [reflexivity|]); intros r' Hr; inv Hr; rewrite E; reflexivity.
  - msimpl. split; [reflexivity|]. intros r' Hr. discriminate.
Qed.

(** C4. When the rename runs without an exception and the PUT of the
    address is answered with a status other than 204, [result] holds the
    rename error and update goes on: it sends the license PATCH, and when
    that is answered 204 it returns the update success. *)
Theorem update_overwrites_rename_error w id w1 taken w2 tok r1 r2 tok' :
  (forall p, params u nu ld gn s p <> "") ->
  u <> nu ->
  findUserId py net (upn u) w = (Ok id, w1) -> truthy id = true ->
  findUserId py net (upnew nu) w1 = (Ok taken, w2) -> truthy taken = false ->
  jwt_encode net (issued w2) = Ok tok ->
  let patch := name_patch (str_id id) gn s tok in
  let put := email_put (str_id id) (upnew nu) tok in
  send net (calls w2) patch = Ok r1 ->
  send net (calls w2 ++ [patch]) put = Ok r2 ->
  status_code r2 <> 204 ->
  jwt_encode net (S (issued w2)) = Ok tok' ->
  let license := license_patch (str_id id) (license_type ld) tok' in
  exists w3,
    update_rename py net u nu gn s id w1
    = (Ok (Next (Some "ERROR: could not rename Zoom user.")), w3)
    /\ calls (snd (update py net u nu ld gn s w))
       = (calls w2 ++ [patch; put; license])%list
    /\ forall r3,
        send net (calls w2 ++ [patch; put]) license = Ok r3 ->
        status_code r3 = 204 ->
        fst (update py net u nu ld gn s w)
        = Ok "SUCCESS: user was updated in Zoom.".
Proof.
  intros Hne Hdiff H1 T1 H2 T2 Ht patch put Hs1 Hs2 Hbad Ht' license.
  destruct (update_rename_runs id w1 Hdiff H2 T2 Ht Hs1 Hs2)
    as [w3 [Hr [C3 I3]]].
  apply Z.eqb_neq in Hbad. rewrite Hbad in Hr.
  exists w3. split; [exact Hr|].
  rewrite <- I3 in Ht'.
  destruct (update_license_runs id w3 Ht') as [w' [Hw [C' R']]].
  assert (E : update py net u nu ld gn s w = update_license py net u ld id w3).
  { unfold update. msimpl. rewrite update_check_pass by exact Hne.
    rewrite H1, T1. cbn [negb]. rewrite Hr. reflexivity. }
  rewrite E, Hw, C', C3, <- app_assoc. split; [reflexivity|].
  intros r3 Hs3 H204. fold patch put in C3. rewrite <- C3 in Hs3.
  rewrite (R' r3 Hs3), H204. reflexivity.
Qed.

(** Every request update sends is a lookup, a rename call, or a PATCH
    whose ["type"] is the license type. *)
Lemma update_sends :
  sends (fun r => forall t, type_field r = Some t -> t = license_type ld)
        (update py net u nu ld gn s).
Proof.
  assert (Hnone : forall r : Request, json r = None ->
            forall t, type_field r = Some t -> t = license_type ld).
  { intros r E t. unfold type_field. rewrite E. discriminate. }
  unfold update, update_rename, update_rename_try, rename_result,
    update_license.
  repeat first
    [ apply update_check_sends
    | apply findUserId_sends; [exact Hnone]
    | sends_step ];
    intros t; unfold type_field; cbn; intros E; now inv E.
Qed.

(** C7. The PATCH of the license step carries the type alone, "1" when
    [loginDisabled] is the string "True" and "2" for any other value; no
    request of update carries another type. *)
Theorem update_license_payload :
  (ld = "True" -> license_type ld = "1")
  /\ (ld <> "True" -> license_type ld = "2")
  /\ (forall id w tok,
         jwt_encode net (issued w) = Ok tok ->
         calls (snd (update_license py net u ld id w))
         = (calls w ++ [mkRequest PATCH (users_url ++ str_id id)
                          (Some [("type", license_type ld)])
                          (make_headers tok)])%list)
  /\ (forall w, exists new,
         calls (snd (update py net u nu ld gn s w)) = (calls w ++ new)%list
         /\ forall r t,
             In r new -> type_field r = Some t ->
             (t = "1" /\ ld = "True") \/ (t = "2" /\ ld <> "True")).
Proof.
  assert (H1 : ld = "True" -> license_type ld = "1").
  { intros ->. reflexivity. }
  assert (H2 : ld <> "True" -> license_type ld = "2").
  { intros N. unfold license_type. apply String.eqb_neq in N. now rewrite N. }
  split; [exact H1|]. split; [exact H2|]. split.
  - intros id w tok Ht.
    destruct (update_license_runs id w Ht) as [w' [<- [C _]]]. exact C.
  - intros w. destruct (update_sends w) as [new [E F]].
    exists new. split; [exact E|]. intros r t Hin Ht.
    rewrite Forall_forall in F. rewrite (F r Hin t Ht).
    destruct (String.eqb_spec ld "True") as [Y|N].
    + left. auto.
    + right. auto.
Qed.

End UpdateProofs.

(** ** listusers *)

Section ListProofs.

Variable py : PyRuntime.
Variable net : Remote.

Lemma print_users_prints users lines :
  Forall2 (fun user line => user_line py user = Ok line) users lines ->
  forall w, print_users py users w = (Ok tt, printed w lines).
Proof.
  unfold printed. induction 1 as [|user line users lines Hl _ IH]; intros w.
  - cbn [print_users]. msimpl. rewrite app_nil_r. now destruct w.
  - cbn [print_users]. msimpl. rewrite Hl. msimpl. rewrite IH.
    cbn [calls issued stdout zoom_log out_rows].
    rewrite <- app_assoc. reflexivity.
Qed.

Lemma print_users_calls users :
  forall w, calls (snd (print_users py users w)) = calls w.
Proof.
  induction users as [|user users IH]; intros w; cbn [print_users].
  - reflexivity.
  - msimpl. destruct (user_line py user); [|reflexivity].
    msimpl. now rewrite IH.
Qed.

(** A page that [reports] is printed, after the header when it is the
    first, and leaves [page_count - page_number] pages. *)
Lemma list_page_reports currentPage resp c p lines w :
  reports py resp c p lines ->
  list_page py currentPage resp w
  = (Ok (c - p),
     printed w ((if currentPage =? 1 then [list_header] else []) ++ lines)).
Proof.
  intros [_ [doc [users [Hd [Hc [Hp [Hu Hl]]]]]]].
  unfold list_page, pages_left. msimpl. rewrite Hd.
  destruct (currentPage =? 1); msimpl; rewrite Hu;
    rewrite (print_users_prints Hl); rewrite Hc, Hp; cbn [obind as_int];
    unfold printed; cbn [calls issued stdout zoom_log out_rows];
    rewrite <- ?app_assoc, ?app_nil_r; reflexivity.
Qed.

(** What a page that was processed to its end looked like. *)
Lemma list_page_inv currentPage resp w left w' :
  list_page py currentPage resp w = (Ok left, w') ->
  calls w' = calls w /\
  exists doc c n,
    json_loads py (text resp) = Ok doc /\
    obind (subscript doc "page_count") as_int = Ok c /\
    obind (subscript doc "page_number") as_int = Ok n /\
    left = c - n.
Proof.
  unfold list_page, pages_left. intros H. msimpl.
  destruct (json_loads py (text resp)) as [doc|e]; [|discriminate].
  destruct (obind (subscript doc "users") py_iter) as [users|e];
    [|destruct (currentPage =? 1); discriminate].
  assert (Hp : exists w1, calls w1 = calls w /\
            match print_users py users w1 with
            | (Ok _, w2) =>
                (obind (subscript doc "page_count") (fun page_count =>
                 obind (subscript doc "page_number") (fun page_number =>
                 obind (as_int page_count) (fun c =>
                 obind (as_int page_number) (fun n => Ok (c - n))))), w2)
            | (Raise e, w2) => (Raise e, w2)
            end = (Ok left, w')).
  { destruct (currentPage =? 1); msimpl; eexists; (split; [|exact H]);
      reflexivity. }
  clear H. destruct Hp as [w1 [Hc1 H]].
  pose proof (print_users_calls users w1) as Hu.
  destruct (print_users py users w1) as [[[]|e] w2]; [|discriminate].
  cbn [snd] in Hu.
  destruct (subscript doc "page_count") as [pc|e] eqn:Hpc; [|discriminate].
  destruct (subscript doc "page_number") as [pn|e] eqn:Hpn; [|discriminate].
  cbn [obind] in *.
  destruct (as_int pc) as [c|e] eqn:Hc; [|discriminate].
  destruct (as_int pn) as [n|e] eqn:Hn; [|discriminate].
  cbn [obind] in H. inv H. split; [congruence|].
  exists doc, c, n. rewrite Hpc, Hpn. cbn [obind]. auto.
Qed.

Lemma list_while_done fuel hdrs currentPage result w :
  list_while py net fuel hdrs currentPage 0 result w = Some (Ok result, w).
Proof. destruct fuel; reflexivity. Qed.

Lemma list_while_step fuel hdrs currentPage PagesLeft result w :
  PagesLeft <> 0 ->
  list_while py net (S fuel) hdrs currentPage PagesLeft result w
  = match requests_get net (page_url currentPage) hdrs w with
    | (Raise e, w1) => Some (Raise e, w1)
    | (Ok response, w1) =>
        if negb (status_code response =? 200) then
          Some ((logging ERROR "did not get list of Zoom users" ;;;
                 print "ERROR: did not get list of Zoom users" ;;;
                 ret (Some "ERROR: did not get list of Zoom users.")) w1)
        else
          match list_page py currentPage response w1 with
          | (Raise e, w2) => Some (Raise e, w2)
          | (Ok PagesLeft', w2) =>
              list_while py net fuel hdrs (currentPage + 1) PagesLeft'
                (Some "SUCCESS: got the list of Zoom users.")
                (snd (logging INFO "got the list of Zoom users" w2))
          end
    end.
Proof.
  intros H. apply Z.eqb_neq in H. cbn [list_while]. rewrite H. reflexivity.
Qed.

(** One turn of the loop on a page that [reports]. *)
Lemma list_while_page fuel hdrs currentPage PagesLeft result w resp c p lines :
  PagesLeft <> 0 ->
  send net (calls w) (mkRequest GET (page_url currentPage) None hdrs)
  = Ok resp ->
  reports py resp c p lines ->
  list_while py net (S fuel) hdrs currentPage PagesLeft result w
  = list_while py net fuel hdrs (currentPage + 1) (c - p)
      (Some "SUCCESS: got the list of Zoom users.")
      (mkWorld
         (calls w ++ [mkRequest GET (page_url currentPage) None hdrs])
         (issued w)
         (stdout w ++ (if currentPage =? 1 then [list_header] else [])
                   ++ lines)
         (zoom_log w ++ [(INFO, "got the list of Zoom users")])
         (out_rows w)).
Proof.
  intros Hpl Hs Hr. rewrite list_while_step by exact Hpl.
  unfold requests_get, request. rewrite Hs.
  destruct Hr as [H200 Hr]. rewrite H200. cbn [Z.eqb Pos.eqb negb].
  rewrite (list_page_reports currentPage _ (conj H200 Hr)).
  reflexivity.
Qed.

(** How the loop can end: by an exception, after a response that is not
    200, or after a 200 response that reports as many pages as its
    number. *)
Lemma list_while_ends fuel : forall hdrs currentPage PagesLeft result w r w',
  PagesLeft <> 0 ->
  list_while py net fuel hdrs currentPage PagesLeft result w = Some (r, w') ->
  (exists e, r = Raise e)
  \/ (exists hist req resp,
         calls w' = (hist ++ [req])%list /\
         send net hist req = Ok resp /\
         status_code resp <> 200 /\
         r = Ok (Some "ERROR: did not get list of Zoom users."))
  \/ (exists hist req resp doc c,
         calls w' = (hist ++ [req])%list /\
         send net hist req = Ok resp /\
         status_code resp = 200 /\
         json_loads py (text resp) = Ok doc /\
         obind (subscript doc "page_count") as_int = Ok c /\
         obind (subscript doc "page_number") as_int = Ok c /\
         r = Ok (Some "SUCCESS: got the list of Zoom users.")).
Proof.
  induction fuel as [|fuel IH]; intros hdrs cp pl result w r w' Hpl H.
  - cbn [list_while] in H. apply Z.eqb_neq in Hpl. rewrite Hpl in H.
    discriminate.
  - rewrite list_while_step in H by exact Hpl.
    unfold requests_get, request in H.
    set (req := mkRequest GET (page_url cp) None hdrs) in *.
    destruct (send net (calls w) req) as [resp|e] eqn:Hs.
    2:{ inv H. left. eexists. reflexivity. }
    destruct (status_code resp =? 200) eqn:H200; cbn [negb] in H.
    + apply Z.eqb_eq in H200.
      destruct (list_page py cp resp _) as [[left|e] w2] eqn:Hp.
      2:{ inv H. left. eexists. reflexivity. }
      apply list_page_inv in Hp. cbn [calls] in Hp.
      destruct Hp as [Hc [doc [c [n [Hd [Hpc [Hpn ->]]]]]]].
      destruct (Z.eq_dec (c - n) 0) as [E|N].
      * rewrite E, list_while_done in H. inv H.
        right; right. exists (calls w), req, resp, doc, c.
        assert (n = c) by lia. subst n. msimpl. auto 10.
      * exact (IH _ _ _ _ _ _ _ N H).
    + apply Z.eqb_neq in H200. msimpl. inv H.
      right; left. exists (calls w), req, resp. auto.
Qed.

(** As long as every page reports fewer pages than its number, the loop
    goes on. *)
Lemma list_while_diverges hdrs :
  (forall hist n, 1 <= n ->
     exists resp c p lines,
       send net hist (mkRequest GET (page_url n) None hdrs) = Ok resp
       /\ reports py resp c p lines /\ c < p) ->
  forall fuel currentPage PagesLeft result w,
    1 <= currentPage -> PagesLeft <> 0 ->
    list_while py net fuel hdrs currentPage PagesLeft result w = None.
Proof.
  intros Hpages. induction fuel as [|fuel IH];
    intros cp pl result w Hcp Hpl.
  - cbn [list_while]. apply Z.eqb_neq in Hpl. now rewrite Hpl.
  - destruct (Hpages (calls w) cp Hcp) as [resp [c [p [lines [Hs [Hr Hlt]]]]]].
    rewrite (@list_while_page fuel hdrs cp pl result w resp c p lines Hpl Hs Hr).
    apply IH; lia.
Qed.

(** C9. The paging loop of listusers ends only through an exception, a
    response that is not 200, or a 200 response that reports a
    page_count equal to its page_number; when every page is a 200
    response that reports a page_count below the page_number it reports
    (in particular, below the page number asked for when the response
    echoes it), the loop does not end, whatever the fuel. *)
Theorem listusers_termination w :
  (forall fuel r w',
      listusers py net fuel w = Some (r, w') ->
      (exists e w1,
          listusers_try py net fuel w = Some (Raise e, w1) /\
          r = Ok "ERROR: Could not get the list of Zoom users.")
      \/ (exists hist req resp,
             calls w' = (hist ++ [req])%list /\
             send net hist req = Ok resp /\
             status_code resp <> 200 /\
             r = Ok "ERROR: did not get list of Zoom users.")
      \/ (exists hist req resp doc c,
             calls w' = (hist ++ [req])%list /\
             send net hist req = Ok resp /\
             status_code resp = 200 /\
             json_loads py (text resp) = Ok doc /\
             obind (subscript doc "page_count") as_int = Ok c /\
             obind (subscript doc "page_number") as_int = Ok c /\
             r = Ok "SUCCESS: got the list of Zoom users."))
  /\ (forall tok,
         jwt_encode net (issued w) = Ok tok ->
         (forall hist n, 1 <= n ->
            exists resp c p lines,
              send net hist (page_request n tok) = Ok resp
              /\ reports py resp c p lines /\ c < p) ->
         forall fuel, listusers py net fuel w = None)
  /\ (forall tok,
         jwt_encode net (issued w) = Ok tok ->
         (forall hist n, 1 <= n ->
            exists resp c lines,
              send net hist (page_request n tok) = Ok resp
              /\ reports py resp c n lines /\ c < n) ->
         forall fuel, listusers py net fuel w = None).
Proof.
  assert (Hgen : forall tok,
             jwt_encode net (issued w) = Ok tok ->
             (forall hist n, 1 <= n ->
                exists resp c p lines,
                  send net hist (page_request n tok) = Ok resp
                  /\ reports py resp c p lines /\ c < p) ->
             forall fuel, listusers py net fuel w = None).
  { intros tok Ht Hpages fuel. unfold listusers, listusers_try. msimpl.
    rewrite Ht. unfold page_request in Hpages.
    rewrite (list_while_diverges _ Hpages) by (lia || discriminate).
    reflexivity. }
  split; [|split; [exact Hgen|]].
  2:{ intros tok Ht Hpages. apply (Hgen tok Ht). intros hist n Hn.
      destruct (Hpages hist n Hn) as [resp [c [lines H]]].
      exists resp, c, n, lines. exact H. }
  intros fuel r w' H. unfold listusers in H.
  destruct (listusers_try py net fuel w) as [[[[result|]|e] w1]|] eqn:Ht;
    try discriminate.
  - inv H. unfold listusers_try in Ht. msimpl.
    destruct (jwt_encode net (issued w)) as [tok|e]; [|discriminate].
    apply list_while_ends in Ht; [|discriminate].
    destruct Ht
      as [[e He]
         |[[hist [req [resp [? [? [? He]]]]]]
          |[hist [req [resp [doc [c [? [? [? [? [? [? He]]]]]]]]]]]]];
      [discriminate| |]; inv He.
    + right; left. exists hist, req, resp. auto.
    + right; right. exists hist, req, resp, doc, c. auto 10.
  - exfalso. unfold listusers_try in Ht. msimpl.
    destruct (jwt_encode net (issued w)) as [tok|e]; [|discriminate].
    apply list_while_ends in Ht; [|discriminate].
    destruct Ht
      as [[e He]
         |[[hist [req [resp [? [? [? He]]]]]]
          |[hist [req [resp [doc [c [? [? [? [? [? [? He]]]]]]]]]]]]];
      discriminate.
  - msimpl. inv H. left. exists e, w1. auto.
Qed.

(** C8. When the pages 1, 2 and 3 are 200 responses that report 3 pages
    and the page number asked for, listusers asks for the pages 1, 2
    and 3 of size 300 and for no other, prints the header once, before
    the users of the first page, then the users page by page, and
    succeeds. *)
Theorem listusers_three_pages w tok (lines : Z -> list string) :
  jwt_encode net (issued w) = Ok tok ->
  (forall hist n, 1 <= n <= 3 ->
     exists resp,
       send net hist (page_request n tok) = Ok resp
       /\ reports py resp 3 n (lines n)) ->
  forall fuel, (3 <= fuel)%nat ->
  exists w',
    listusers py net fuel w
    = Some (Ok "SUCCESS: got the list of Zoom users.", w')
    /\ calls w' = (calls w ++ [page_request 1 tok; page_request 2 tok;
                               page_request 3 tok])%list
    /\ map url [page_request 1 tok; page_request 2 tok; page_request 3 tok]
       = ["https://api.zoom.us/v2/users?page_size=300&page_number=1";
          "https://api.zoom.us/v2/users?page_size=300&page_number=2";
          "https://api.zoom.us/v2/users?page_size=300&page_number=3"]
    /\ stdout w' = (stdout w ++ [list_header] ++ lines 1 ++ lines 2
                              ++ lines 3)%list.
Proof.
  intros Ht Hpages fuel Hfuel.
  destruct fuel as [|[|[|fuel]]]; try lia.
  unfold listusers, listusers_try. msimpl. rewrite Ht.
  unfold page_request in *.
  set (hdrs := make_headers tok) in *.
  set (req := fun n => mkRequest GET (page_url n) None hdrs) in *.
  destruct (Hpages (calls w) 1) as [r1 [Hs1 R1]]; [lia|].
  destruct (Hpages (calls w ++ [req 1])%list 2) as [r2 [Hs2 R2]]; [lia|].
  destruct (Hpages ((calls w ++ [req 1]) ++ [req 2])%list 3)
    as [r3 [Hs3 R3]]; [lia|].
  erewrite list_while_page; [|discriminate|exact Hs1|exact R1].
  cbn [calls issued stdout zoom_log out_rows].
  change (1 + 1) with 2. change (3 - 1) with 2.
  erewrite list_while_page; [|discriminate|exact Hs2|exact R2].
  cbn [calls issued stdout zoom_log out_rows].
  change (2 + 1) with 3. change (3 - 2) with 1.
  erewrite list_while_page; [|discriminate|exact Hs3|exact R3].
  cbn [calls issued stdout zoom_log out_rows].
  change (3 - 3) with 0. rewrite list_while_done.
  eexists. split; [reflexivity|]. cbn [calls stdout].
  split; [now rewrite <- !app_assoc|]. split; [reflexivity|].
  cbn [Z.eqb Pos.eqb]. rewrite <- !app_assoc. reflexivity.
Qed.

End ListProofs.

(** ** The script on concrete remotes *)

Section Runs.

Import Scenario.

(** C1. With a transport that fails, the lookup of update and of delete
    raises out of the handler: the [except] clause of [findUserId] binds
    nothing to [id], and the handlers call it outside their own [try].
    In [main] the exception leaves the loop: no row is written for the
    action, and the action after it is not processed. *)
Theorem handler_raises_when_lookup_fails :
  fst (update runtime net_down "old" "new" "False" "John" "Testuser" world0)
  = Raise (UnboundLocalError "id")
  /\ fst (delete runtime net_down "old" world0)
     = Raise (UnboundLocalError "id")
  /\ forall fuel,
      exists w',
        main runtime net_down "in.json" "out.csv"
             [rename_old_new; delete_of "b"] fuel world0 = Some (Ok tt, w')
        /\ data_rows w' = []
        /\ map url (calls w') = ["https://api.zoom.us/v2/users/old@xyz.com"].
Proof.
  split; [vm_compute; reflexivity|]. split; [vm_compute; reflexivity|].
  intros fuel. eexists. split; [vm_compute; reflexivity|].
  split; reflexivity.
Qed.

(** C2. Two delete actions against a transport that fails: the output
    file holds the header and no data row. *)
Theorem main_drops_rows :
  forall fuel,
    exists w',
      main runtime net_down "in.json" "out.csv"
           [delete_of "a"; delete_of "b"] fuel world0 = Some (Ok tt, w')
      /\ out_rows w' = [["action"; "username"; "result"]]
      /\ length (data_rows w') = 0%nat
      /\ length [delete_of "a"; delete_of "b"] = 2%nat.
Proof.
  intros fuel. eexists. split; [vm_compute; reflexivity|]. repeat split.
Qed.

(** C3. A rename whose PATCH of the names is answered 400 and whose PUT
    of the address is answered 204: the two calls are sent in order, the
    rename is reported as a success, and so is the update. *)
Theorem rename_ignores_name_patch_status :
  let net := net_rename false 400 204 204 in
  let run := update runtime net "old" "new" "False" "John" "Testuser" world0 in
  let patch := name_patch "abc" "John" "Testuser" "tok" in
  let put := email_put "abc" "new@xyz.com" "tok" in
  firstn 2 (skipn 2 (calls (snd run))) = [patch; put]
  /\ send net (firstn 2 (calls (snd run))) patch = Ok (mkResponse 400 "")
  /\ send net (firstn 3 (calls (snd run))) put = Ok (mkResponse 204 "")
  /\ (exists w1 w3,
         update_rename runtime net "old" "new" "John" "Testuser"
                       (IdStr "abc") w1
         = (Ok (Next (Some "SUCCESS: user was renamed in Zoom.")), w3))
  /\ zoom_log (snd run) = [(INFO, "user renamed in Zoom: old");
                           (INFO, "user updated in Zoom: old")]
  /\ fst run = Ok "SUCCESS: user was updated in Zoom.".
Proof.
  cbv zeta. split; [vm_compute; reflexivity|].
  split; [vm_compute; reflexivity|]. split; [vm_compute; reflexivity|].
  split.
  - exists world0. eexists. vm_compute. reflexivity.
  - split; vm_compute; reflexivity.
Qed.

Lemma args_order_complete : forall p, In p (locals_order runtime).
Proof. intros []; cbn; auto 6. Qed.

Lemma page_of_url n : 1 <= n -> page_of (page_url n) = n.
Proof.
  intros Hn. unfold page_of.
  change (skip 55 (page_url n)) with (NilZero.string_of_int (Z.to_int n)).
  destruct n as [|p|p]; try lia.
  rewrite NilZero.isi.
  - apply (DecimalZ.of_to (Zpos p)).
  - cbn. intros E. inv E. now apply (DecimalPos.Unsigned.to_uint_nonnil p).
  - discriminate.
Qed.

End Runs.

(** ** Instances of the theorems *)

Section Witnesses.

Import Scenario.

Lemma update_missing_value_witness :
  exists p w',
    params "" "new" "False" "John" "Testuser" p = ""
    /\ update runtime net_down "" "new" "False" "John" "Testuser" world0
       = (Ok ("ERROR: Missing an expected input value for "
              ++ param_name p ++ " in input file."), w')
    /\ calls w' = calls world0 /\ issued w' = issued world0.
Proof.
  apply update_missing_value.
  - exact args_order_complete.
  - exists p_username. reflexivity.
Defined.

Lemma update_name_taken_witness :
  exists tok1 tok2 w',
    update runtime (net_rename true 204 204 204)
           "old" "new" "False" "John" "Testuser" world0
    = (Ok "ERROR: username already taken!", w')
    /\ calls w' = (calls world0 ++ [lookup_request (upn "old") tok1;
                                    lookup_request (upnew "new") tok2])%list
    /\ issued w' = S (S (issued world0)).
Proof.
  set (net := net_rename true 204 204 204).
  set (w1 := snd (findUserId runtime net (upn "old") world0)).
  set (w2 := snd (findUserId runtime net (upnew "new") w1)).
  apply (@update_name_taken runtime net "old" "new" "False" "John" "Testuser"
           world0 (IdStr "abc") w1 (IdStr "xyz") w2).
  - intros []; discriminate.
  - discriminate.
  - reflexivity.
  - reflexivity.
  - reflexivity.
  - reflexivity.
Defined.

Lemma update_overwrites_rename_error_witness :
  let net := net_rename false 204 400 204 in
  send net [lookup_request (upn "old") "tok";
            lookup_request (upnew "new") "tok";
            name_patch "abc" "John" "Testuser" "tok"]
       (email_put "abc" (upnew "new") "tok") = Ok (mkResponse 400 "")
  /\ fst (update runtime net "old" "new" "False" "John" "Testuser" world0)
     = Ok "SUCCESS: user was updated in Zoom.".
Proof.
  cbv zeta. split; [reflexivity|].
  set (net := net_rename false 204 400 204).
  set (w1 := snd (findUserId runtime net (upn "old") world0)).
  set (w2 := snd (findUserId runtime net (upnew "new") w1)).
  destruct (@update_overwrites_rename_error runtime net
              "old" "new" "False" "John" "Testuser"
              world0 (IdStr "abc") w1 IdFalse w2 "tok"
              (mkResponse 204 "") (mkResponse 400 "") "tok")
    as [w3 [_ [_ H]]].
  - intros []; discriminate.
  - discriminate.
  - reflexivity.
  - reflexivity.
  - reflexivity.
  - reflexivity.
  - reflexivity.
  - reflexivity.
  - reflexivity.
  - discriminate.
  - reflexivity.
  - apply (H (mkResponse 204 "")); reflexivity.
Defined.

Lemma update_license_payload_witness :
  license_type "True" = "1" /\ license_type "False" = "2"
  /\ calls (snd (update_license runtime (net_rename false 204 204 204)
                   "old" "True" (IdStr "abc") world0))
     = [license_patch "abc" "1" "tok"].
Proof.
  destruct (update_license_payload runtime (net_rename false 204 204 204)
              "old" "old" "True" "John" "Testuser") as [H1 [_ [H3 _]]].
  destruct (update_license_payload runtime (net_rename false 204 204 204)
              "old" "old" "False" "John" "Testuser") as [_ [H2 _]].
  split; [apply H1; reflexivity|]. split; [apply H2; discriminate|].
  apply (H3 (IdStr "abc") world0 "tok"). reflexivity.
Defined.

Lemma listusers_three_pages_witness :
  exists w',
    listusers runtime net_pages 3 world0
    = Some (Ok "SUCCESS: got the list of Zoom users.", w')
    /\ calls w' = [page_request 1 "tok"; page_request 2 "tok";
                   page_request 3 "tok"]
    /\ stdout w' = list_header :: (page_lines 1 ++ page_lines 2
                                   ++ page_lines 3)%list.
Proof.
  destruct (@listusers_three_pages runtime net_pages world0 "tok" page_lines)
    with (fuel := 3%nat) as [w' [H [Hc [_ Hp]]]].
  - reflexivity.
  - intros hist n Hn.
    assert (E : n = 1 \/ n = 2 \/ n = 3) by lia.
    destruct E as [-> | [-> | ->]].
    + exists (mkResponse 200 "page1"). split; [reflexivity|].
      split; [reflexivity|]. exists (page users1 3 1), users1.
      repeat (split; [reflexivity|]). repeat constructor.
    + exists (mkResponse 200 "page2"). split; [reflexivity|].
      split; [reflexivity|]. exists (page users2 3 2), users2.
      repeat (split; [reflexivity|]). repeat constructor.
    + exists (mkResponse 200 "page3"). split; [reflexivity|].
      split; [reflexivity|]. exists (page users3 3 3), users3.
      repeat (split; [reflexivity|]). repeat constructor.
  - lia.
  - exists w'. split; [exact H|]. split; [exact Hc|exact Hp].
Defined.

Lemma listusers_termination_witness :
  (forall fuel, listusers runtime net_empty fuel world0 = None)
  /\ (forall fuel, listusers runtime_echo net_echo fuel world0 = None)
  /\ listusers runtime (net_const 500 "") 1 world0
     = Some (Ok "ERROR: did not get list of Zoom users.",
             after world0 [page_request 1 "tok"] 1
               ["ERROR: did not get list of Zoom users"]
               [(ERROR, "did not get list of Zoom users")]).
Proof.
  split; [|split].
  - destruct (listusers_termination runtime net_empty world0) as [_ [H _]].
    apply (H "tok"); [reflexivity|].
    intros hist n _. exists (mkResponse 200 "empty"), 0, 1, [].
    split; [reflexivity|]. split; [|lia].
    split; [reflexivity|]. exists (page [] 0 1), [].
    repeat (split; [reflexivity|]). constructor.
  - destruct (listusers_termination runtime_echo net_echo world0)
      as [_ [_ H]].
    apply (H "tok"); [reflexivity|].
    intros hist n Hn. exists (mkResponse 200 (page_url n)), 0, [].
    split; [reflexivity|]. split; [|lia].
    split; [reflexivity|]. exists (page [] 0 (page_of (page_url n))), [].
    split; [reflexivity|]. split; [reflexivity|].
    split.
    { change (Ok (PyInt (page_of (page_url n))) = Ok (PyInt n)).
      now rewrite page_of_url. }
    split; [reflexivity|constructor].
  - destruct (listusers_termination runtime (net_const 500 "") world0)
      as [H _].
    destruct (H 1%nat (Ok "ERROR: did not get list of Zoom users.")
                (after world0 [page_request 1 "tok"] 1
                   ["ERROR: did not get list of Zoom users"]
                   [(ERROR, "did not get list of Zoom users")])
                eq_refl) as [_|_]; reflexivity.
Defined.

Lemma findUserId_resolves_witness :
  findUserId runtime
    (net_const 200 (user_body "abc" "old@xyz.com")) "old@xyz.com" world0
  = (Ok (IdStr "abc"), after world0 [lookup_request "old@xyz.com" "tok"] 1 [] [])
  /\ findUserId runtime (net_const 404 "") "old@xyz.com" world0
     = (Ok IdFalse, after world0 [lookup_request "old@xyz.com" "tok"] 1 [] [])
  /\ findUserId runtime (net_const 200 "{}") "old@xyz.com" world0
     = (Ok IdFalse, after world0 [lookup_request "old@xyz.com" "tok"] 1 [] [])
  /\ findUserId runtime (net_const 500 "") "old@xyz.com" world0
     = (Ok IdFalse,
        after world0 [lookup_request "old@xyz.com" "tok"] 1
          ["ERROR: Zoom service did not respond correctly"]
          [(ERROR, "Zoom service returned: 500")]).
Proof.
  split; [|split; [|split]].
  - destruct (findUserId_resolves runtime
                (net_const 200 (user_body "abc" "old@xyz.com"))
                "old@xyz.com" world0) as [_ H].
    destruct (H "tok" (mkResponse 200 (user_body "abc" "old@xyz.com"))
                eq_refl eq_refl) as [H1 _].
    apply (H1 (Py.quoted "abc")); reflexivity.
  - destruct (findUserId_resolves runtime (net_const 404 "")
                "old@xyz.com" world0) as [_ H].
    destruct (H "tok" (mkResponse 404 "") eq_refl eq_refl) as [_ [H2 _]].
    apply H2; reflexivity.
  - destruct (findUserId_resolves runtime (net_const 200 "{}")
                "old@xyz.com" world0) as [_ H].
    destruct (H "tok" (mkResponse 200 "{}") eq_refl eq_refl)
      as [_ [_ [H3 _]]].
    apply H3; reflexivity.
  - destruct (findUserId_resolves runtime (net_const 500 "")
                "old@xyz.com" world0) as [_ H].
    destruct (H "tok" (mkResponse 500 "") eq_refl eq_refl)
      as [_ [_ [_ H4]]].
    apply H4; discriminate.
Defined.

End Witnesses.

(** ** Frames: what a computation leaves alone *)

Section Keeps.

Context {X : Type} (f : World -> X).

Lemma keeps_bind {A B} (m : M A) (k : A -> M B) :
  keeps f m -> (forall a, keeps f (k a)) -> keeps f (bind m k).
Proof.
  intros Hm Hk w. unfold bind. specialize (Hm w).
  destruct (m w) as [[a|e] w1]; cbn [snd] in *.
  - now rewrite Hk.
  - exact Hm.
Qed.

Lemma keeps_try_except {A} (body : M A) (handler : exn -> M A) :
  keeps f body -> (forall e, keeps f (handler e)) ->
  keeps f (try_except body handler).
Proof.
  intros Hm Hk w. unfold try_except. specialize (Hm w).
  destruct (body w) as [[a|e] w1]; cbn [snd] in *.
  - exact Hm.
  - now rewrite Hk.
Qed.

End Keeps.

Ltac keeps_step :=
  match goal with
  | |- keeps _ (bind _ _) => apply keeps_bind; [|intros]
  | |- keeps _ (try_except _ _) => apply keeps_try_except; [|intros]
  | |- keeps _ (if ?b then _ else _) => destruct b
  | |- keeps _ (match ?x with _ => _ end) => destruct x
  | |- keeps _ _ => solve [intros ?; reflexivity]
  end.

Lemma safe_bind {A B} (m : M A) (k : A -> M B) :
  safe m -> (forall a, safe (k a)) -> safe (bind m k).
Proof.
  intros Hm Hk w e. unfold bind. specialize (Hm w).
  destruct (m w) as [[a|e'] w1]; cbn [fst] in *.
  - apply Hk.
  - now destruct (Hm e').
Qed.

Lemma safe_try_except {A} (body : M A) (handler : exn -> M A) :
  (forall e, safe (handler e)) -> safe (try_except body handler).
Proof.
  intros Hk w e. unfold try_except.
  destruct (body w) as [[a|e'] w1]; cbn [fst].
  - discriminate.
  - apply Hk.
Qed.

Ltac safe_step :=
  match goal with
  | |- safe (bind _ _) => apply safe_bind; [|intros]
  | |- safe (try_except _ _) => apply safe_try_except; intros
  | |- safe (if ?b then _ else _) => destruct b
  | |- safe (match ?x with _ => _ end) => destruct x
  | |- safe _ => solve [intros ? ?; discriminate]
  end.

(** ** delete *)

Section DeleteProofs.

Variable py : PyRuntime.
Variable net : Remote.

(** X1. delete sends no DELETE request without a target: with an empty
    username it returns the missing-value error and neither signs nor
    sends; when the lookup returns a false value ([False] or an empty id)
    it returns the not-found error and the lookup is its only request. *)
Theorem delete_without_user w :
  (exists w',
      delete py net "" w
      = (Ok "ERROR: Missing an expected input value for username in input file.",
         w')
      /\ calls w' = calls w /\ issued w' = issued w)
  /\ (forall username id w1,
         username <> "" ->
         findUserId py net (upn username) w = (Ok id, w1) ->
         truthy id = false ->
         exists w',
           delete py net username w
           = (Ok "ERROR: user could not be found in Zoom!", w')
           /\ calls w' = calls w1 /\ issued w' = issued w1
           /\ stdout w'
              = (stdout w1
                 ++ [("ERROR: user does not exist in Zoom: " ++ username)%string]
                )%list).
Proof.
  split.
  - eexists. unfold delete. cbn [String.eqb]. msimpl.
    split; [reflexivity|]. split; reflexivity.
  - intros username id w1 Hne H1 T1. unfold delete.
    apply String.eqb_neq in Hne. rewrite Hne. cbv zeta.
    fold (upn username). msimpl. rewrite H1, T1. cbn [negb].
    eexists. split; [reflexivity|]. cbn [calls issued stdout]. auto.
Qed.

(** X2. Once the user resolves, delete signs a token and sends one DELETE
    of the user's id; it returns the success string for a 204 response, an
    error string for any other response, and another error string when the
    transport raises: the exception does not leave the handler. *)
Theorem delete_classifies username w id w1 tok reply :
  username <> "" ->
  findUserId py net (upn username) w = (Ok id, w1) ->
  truthy id = true ->
  jwt_encode net (issued w1) = Ok tok ->
  send net (calls w1) (delete_request (str_id id) tok) = reply ->
  exists w',
    delete py net username w
    = (Ok match reply with
          | Ok r => if status_code r =? 204
                    then "SUCCESS: user deleted in Zoom."
                    else "ERROR: could not delete user in Zoom."
          | Raise _ => "ERROR: Could not delete Zoom user."
          end, w')
    /\ calls w' = (calls w1 ++ [delete_request (str_id id) tok])%list
    /\ issued w' = S (issued w1).
Proof.
  intros Hne H1 T1 Ht Hs. unfold delete, delete_request in *.
  apply String.eqb_neq in Hne. rewrite Hne. cbv zeta.
  fold (upn username). msimpl. rewrite H1, T1. cbn [negb].
  rewrite Ht. msimpl. rewrite Hs.
  destruct reply as [r|e].
  - destruct (status_code r =? 204); cbn [negb]; msimpl;
      eexists; (split; [reflexivity|]); split; reflexivity.
  - msimpl. eexists. split; [reflexivity|]. split; reflexivity.
Qed.

End DeleteProofs.

(** ** More on the resolver *)

Section ResolverMore.

Variable py : PyRuntime.
Variable net : Remote.

Lemma findUserId_sends_lookup P upn :
  (forall tok, P (lookup_request upn tok)) -> sends P (findUserId py net upn).
Proof.
  intros HP. unfold findUserId, findUserId_try.
  repeat sends_step; apply HP.
Qed.

Lemma findUserId_keeps_rows upn : keeps out_rows (findUserId py net upn).
Proof. unfold findUserId, findUserId_try. repeat keeps_step. Qed.

(** X3. When the resolver raises.  A failure to sign the token leaves it
    as it is, before any request (the token is signed outside the [try]);
    otherwise it raises exactly when the [try] block was left by an
    exception, and then always with the unbound local [id]: the transport
    raised, or the response was a 200 and either the address is not ASCII
    (the membership test cannot decode it), or the body contains the
    address and is not ASCII ([str] cannot encode it) or has the bare key
    of the id as its first field, so that the id is missing. *)
Theorem findUserId_raises upn w e :
  fst (findUserId py net upn w) = Raise e <->
  jwt_encode net (issued w) = Raise e
  \/ (e = UnboundLocalError "id" /\
      exists tok,
        jwt_encode net (issued w) = Ok tok /\
        ((exists e', send net (calls w) (lookup_request upn tok) = Raise e')
         \/ (exists resp,
                send net (calls w) (lookup_request upn tok) = Ok resp /\
                status_code resp = 200 /\
                (Py.is_ascii upn = false
                 \/ (Py.contains upn (text resp) = true /\
                     (Py.is_ascii (text resp) = false
                      \/ Py.split ":" (nth 0 (Py.split "," (text resp)) "")
                         = ["{" ++ Py.quoted "id"])))))).
Proof.
  unfold findUserId, findUserId_try, str_unicode.
  fold (lookup_request upn). msimpl.
  destruct (jwt_encode net (issued w)) as [tok|e0] eqn:Ht; msimpl.
  2:{ split.
      - intros H. inv H. now left.
      - intros [H|[_ [tok [H _]]]]; [now inv H|discriminate]. }
  fold (lookup_request upn tok).
  destruct (send net (calls w) (lookup_request upn tok)) as [resp|e0] eqn:Hs;
    msimpl.
  2:{ split.
      - intros H. inv H. right. split; [reflexivity|]. exists tok.
        split; [reflexivity|]. left. now exists e0.
      - intros [H|[-> _]]; [discriminate|reflexivity]. }
  assert (Hback : forall Q : Prop,
             (status_code resp = 200 ->
              Py.is_ascii upn = false
              \/ (Py.contains upn (text resp) = true /\
                  (Py.is_ascii (text resp) = false
                   \/ Py.split ":" (nth 0 (Py.split "," (text resp)) "")
                      = ["{" ++ Py.quoted "id"])) -> Q) ->
             Ok tok = Raise e
             \/ (e = UnboundLocalError "id" /\
                 exists tok0,
                   Ok tok = Ok tok0 /\
                   ((exists e',
                        send net (calls w) (lookup_request upn tok0) = Raise e')
                    \/ (exists r,
                           send net (calls w) (lookup_request upn tok0) = Ok r /\
                           status_code r = 200 /\
                           (Py.is_ascii upn = false
                            \/ (Py.contains upn (text r) = true /\
                                (Py.is_ascii (text r) = false
                                 \/ Py.split ":"
                                      (nth 0 (Py.split "," (text r)) "")
                                    = ["{" ++ Py.quoted "id"])))))) -> Q).
  { intros Q HQ [H|[_ [tok0 [E [[e' H]|[r [Hr [Hst Hc]]]]]]]].
    - discriminate H.
    - inv E. rewrite Hs in H. discriminate H.
    - inv E. rewrite Hs in Hr. inv Hr. exact (HQ Hst Hc). }
  assert (Hforth : status_code resp = 200 ->
             Py.is_ascii upn = false
             \/ (Py.contains upn (text resp) = true /\
                 (Py.is_ascii (text resp) = false
                  \/ Py.split ":" (nth 0 (Py.split "," (text resp)) "")
                     = ["{" ++ Py.quoted "id"])) ->
             Ok tok = Raise (UnboundLocalError "id")
             \/ (UnboundLocalError "id" = UnboundLocalError "id" /\
                 exists tok0,
                   Ok tok = Ok tok0 /\
                   ((exists e',
                        send net (calls w) (lookup_request upn tok0) = Raise e')
                    \/ (exists r,
                           send net (calls w) (lookup_request upn tok0) = Ok r /\
                           status_code r = 200 /\
                           (Py.is_ascii upn = false
                            \/ (Py.contains upn (text r) = true /\
                                (Py.is_ascii (text r) = false
                                 \/ Py.split ":"
                                      (nth 0 (Py.split "," (text r)) "")
                                    = ["{" ++ Py.quoted "id"]))))))).
  { intros Hst Hc. right. split; [reflexivity|]. exists tok.
    split; [reflexivity|]. right. exists resp. rewrite Hs. auto. }
  destruct (status_code resp =? 200) eqn:H200.
  - apply Z.eqb_eq in H200.
    destruct (Py.is_ascii upn) eqn:Hupn; cbn [negb]; msimpl.
    2:{ split.
        - intros H. inv H. apply Hforth; auto.
        - intros [H|[-> _]]; [discriminate H|reflexivity]. }
    destruct (Py.contains upn (text resp)) eqn:Hin; cbn [negb]; msimpl.
    2:{ split; [intros H; discriminate H|].
        apply Hback. intros _ [H|[H _]]; discriminate H. }
    destruct (Py.is_ascii (text resp)) eqn:Hbody; msimpl.
    2:{ split.
        - intros H. inv H. apply Hforth; auto.
        - intros [H|[-> _]]; [discriminate H|reflexivity]. }
    destruct (Py.split ":" (nth 0 (Py.split "," (text resp)) ""))
      as [|k [|v rest]] eqn:Hsplit; cbn [nth nth_error].
    + destruct (String.eqb_spec "" ("{" ++ Py.quoted "id")) as [E|_];
        [discriminate E|]. msimpl.
      split; [intros H; discriminate H|].
      apply Hback. intros _ [H|[_ [H|H]]]; discriminate H.
    + destruct (String.eqb_spec k ("{" ++ Py.quoted "id")) as [->|N]; msimpl.
      * split.
        -- intros H. inv H. apply Hforth; auto.
        -- intros [H|[-> _]]; [discriminate H|reflexivity].
      * split; [intros H; discriminate H|].
        apply Hback. intros _ [H|[_ [H|H]]]; try discriminate H.
        inv H. now destruct N.
    + destruct (String.eqb_spec k ("{" ++ Py.quoted "id")) as [->|N]; msimpl;
        (split; [intros H; discriminate H|]);
        apply Hback; intros _ [H|[_ [H|H]]]; discriminate H.
  - apply Z.eqb_neq in H200.
    destruct (status_code resp =? 404); msimpl;
      (split; [intros H; discriminate H|]);
      apply Hback; intros Hst _; contradiction.
Qed.

(** X23. An ASCII 200 body that contains the address but whose first
    field is not the id (another field comes first, or the body is written
    with spaces) resolves to [False]: the user is reported absent although
    the service answered. *)
Theorem findUserId_other_first_field upn w tok resp :
  jwt_encode net (issued w) = Ok tok ->
  send net (calls w) (lookup_request upn tok) = Ok resp ->
  status_code resp = 200 ->
  Py.contains upn (text resp) = true ->
  Py.is_ascii (text resp) = true ->
  nth 0 (Py.split ":" (nth 0 (Py.split "," (text resp)) "")) ""
  <> "{" ++ Py.quoted "id" ->
  findUserId py net upn w
  = (Ok IdFalse, after w [lookup_request upn tok] 1 [] []).
Proof.
  intros Ht Hs H200 Hin Hbody Hkey.
  pose proof (contains_ascii _ _ Hin Hbody) as Hupn.
  unfold findUserId, findUserId_try, str_unicode, after.
  fold (lookup_request upn).
  msimpl. rewrite Ht. msimpl. fold (lookup_request upn tok). rewrite Hs.
  apply Z.eqb_eq in H200. apply String.eqb_neq in Hkey.
  rewrite H200, Hupn, Hin, Hbody. cbn [negb]. msimpl.
  rewrite Hkey, !app_nil_r. reflexivity.
Qed.

End ResolverMore.

(** ** More on update *)

Section UpdateMore.

Variable py : PyRuntime.
Variable net : Remote.
Variables u nu ld gn s : string.

(** Validation never raises; when it passes, the world is untouched. *)
Lemma update_check_cases items w :
  update_check u nu ld gn s items w = (Ok (Next tt), w)
  \/ exists r w', update_check u nu ld gn s items w = (Ok (Return r), w').
Proof.
  induction items as [|p items IH]; cbn [update_check].
  - now left.
  - destruct (params u nu ld gn s p =? "")%string.
    + right. msimpl. eauto.
    + exact IH.
Qed.

Lemma update_rename_safe id : safe (update_rename py net u nu gn s id).
Proof. unfold update_rename. repeat safe_step. Qed.

Lemma update_license_safe id : safe (update_license py net u ld id).
Proof. unfold update_license. repeat safe_step. Qed.

(** X4. When the lookup of the user returns a false value, update returns
    the not-found error and the lookup is its only request: no rename and
    no license call. *)
Theorem update_not_found w id w1 :
  (forall p, params u nu ld gn s p <> "") ->
  findUserId py net (upn u) w = (Ok id, w1) ->
  truthy id = false ->
  exists w',
    update py net u nu ld gn s w
    = (Ok "ERROR: user could not be found in Zoom!", w')
    /\ calls w' = calls w1 /\ issued w' = issued w1.
Proof.
  intros Hne H1 T1. unfold update. msimpl.
  rewrite update_check_pass by exact Hne. rewrite H1, T1. cbn [negb].
  eexists. split; [reflexivity|]. split; reflexivity.
Qed.

(** X5. When the new name is the old one, update does not look the new
    name up and sends no rename call: after the lookup it signs a token and
    sends the license PATCH.  The result is the success string for a 204
    response, an error string for any other, and another error string when
    the transport raises. *)
Theorem update_same_name w id w1 tok reply :
  nu = u ->
  (forall p, params u nu ld gn s p <> "") ->
  findUserId py net (upn u) w = (Ok id, w1) ->
  truthy id = true ->
  jwt_encode net (issued w1) = Ok tok ->
  send net (calls w1) (license_patch (str_id id) (license_type ld) tok)
  = reply ->
  exists w',
    update py net u nu ld gn s w
    = (Ok match reply with
          | Ok r => if status_code r =? 204
                    then "SUCCESS: user was updated in Zoom."
                    else "ERROR: could not update Zoom user."
          | Raise _ => "ERROR: Could not update Zoom user."
          end, w')
    /\ calls w' = (calls w1 ++ [license_patch (str_id id) (license_type ld)
                                              tok])%list
    /\ issued w' = S (issued w1).
Proof.
  intros -> Hne H1 T1 Ht Hs. unfold update, update_rename, update_license,
    license_patch in *.
  msimpl. rewrite update_check_pass by exact Hne. rewrite H1, T1.
  cbn [negb]. rewrite String.eqb_refl. cbn [negb]. msimpl.
  rewrite Ht. msimpl. rewrite Hs.
  destruct reply as [r|e].
  - destruct (status_code r =? 204); cbn [negb]; msimpl;
      eexists; (split; [reflexivity|]); split; reflexivity.
  - msimpl. eexists. split; [reflexivity|]. split; reflexivity.
Qed.

(** X6. An exception anywhere in the rename block (the lookup of the new
    name, the token, the PATCH or the PUT) is caught: update returns the
    rename error at once, and sends and signs nothing after the point where
    the exception was raised; the license step is not attempted. *)
Theorem update_rename_exception w id w1 e w2 :
  (forall p, params u nu ld gn s p <> "") ->
  u <> nu ->
  findUserId py net (upn u) w = (Ok id, w1) ->
  truthy id = true ->
  update_rename_try py net u nu gn s id w1 = (Raise e, w2) ->
  exists w',
    update py net u nu ld gn s w = (Ok "ERROR: Could not rename Zoom user.", w')
    /\ calls w' = calls w2 /\ issued w' = issued w2
    /\ zoom_log w'
       = (zoom_log w2 ++ [(ERROR, ("Zoom user rename failed for: " ++ u
                                   ++ ": " ++ str_exn py e)%string)])%list.
Proof.
  intros Hne Hdiff H1 T1 Hr. unfold update, update_rename. msimpl.
  rewrite update_check_pass by exact Hne. rewrite H1, T1. cbn [negb].
  apply String.eqb_neq in Hdiff. rewrite Hdiff. cbn [negb]. msimpl.
  rewrite Hr. msimpl.
  eexists. split; [reflexivity|]. cbn [calls issued zoom_log]. auto.
Qed.

(** An exception that leaves update was raised by the lookup of the user. *)
Lemma update_raise_inv w e :
  fst (update py net u nu ld gn s w) = Raise e ->
  fst (findUserId py net (upn u) w) = Raise e.
Proof.
  unfold update. msimpl. intros H.
  destruct (update_check_cases (locals_order py) w) as [E|[r [w' E]]];
    rewrite E in H; [|discriminate H].
  destruct (findUserId py net (upn u) w) as [[id|e'] w1];
    [|cbn [fst] in *; congruence].
  exfalso. destruct (negb (truthy id)); msimpl; [discriminate H|].
  pose proof (update_rename_safe id w1) as Hr.
  destruct (update_rename py net u nu gn s id w1) as [[[r|r]|e'] w2];
    cbn [fst] in *.
  - now apply update_license_safe in H.
  - discriminate H.
  - now destruct (Hr e').
Qed.

(** X7. update raises exactly when validation passes and the lookup of
    the user raises: every later step runs inside a [try] whose handler
    returns a result string. *)
Theorem update_raises_in_lookup_only w e :
  (fst (update py net u nu ld gn s w) = Raise e ->
   fst (findUserId py net (upn u) w) = Raise e)
  /\ ((forall p, params u nu ld gn s p <> "") ->
      fst (findUserId py net (upn u) w) = Raise e ->
      fst (update py net u nu ld gn s w) = Raise e).
Proof.
  split; [apply update_raise_inv|].
  intros Hne H. unfold update. msimpl.
  rewrite update_check_pass by exact Hne.
  destruct (findUserId py net (upn u) w) as [[id|e'] w1]; cbn [fst] in *;
    [discriminate|congruence].
Qed.

(** X8. Every request update sends goes to the users endpoint with the
    bearer token and the JSON content type in its headers, and none is a
    DELETE; a body is sent with the PATCH and the PUT only. *)
Theorem update_requests w :
  exists new,
    calls (snd (update py net u nu ld gn s w)) = (calls w ++ new)%list
    /\ Forall (fun r =>
                 method r <> DELETE
                 /\ (exists rest, url r = users_url ++ rest)
                 /\ (exists tok, headers r = make_headers tok)
                 /\ (json r = None <-> method r = GET)) new.
Proof.
  apply (@sends_bind _ _ _ _ _ (update_check_sends u nu ld gn s _ _)).
  intros c. unfold update_rename, update_rename_try, rename_result,
    update_license.
  repeat first
    [ apply findUserId_sends_lookup; intros
    | sends_step ];
    (split; [discriminate|]); (split; [eexists; reflexivity|]);
    (split; [eexists; reflexivity|]);
    cbn [json method]; split; intros H; (discriminate H || reflexivity).
Qed.

(** X22. A rename that goes through.  When the user resolves, the new
    name is free and the three writes are answered 204, update sends, in
    this order, the lookup of the user, the lookup of the new name, the
    PATCH of the names, the PUT of the new address and the PATCH of the
    license; it signs four tokens, the PATCH of the names and the PUT
    sharing one; and it returns the update success. *)
Theorem update_rename_success w id w1 taken w2 tok r1 r2 tok' r3 :
  (forall p, params u nu ld gn s p <> "") ->
  u <> nu ->
  findUserId py net (upn u) w = (Ok id, w1) -> truthy id = true ->
  findUserId py net (upnew nu) w1 = (Ok taken, w2) -> truthy taken = false ->
  jwt_encode net (issued w2) = Ok tok ->
  let patch := name_patch (str_id id) gn s tok in
  let put := email_put (str_id id) (upnew nu) tok in
  send net (calls w2) patch = Ok r1 ->
  send net (calls w2 ++ [patch]) put = Ok r2 ->
  status_code r2 = 204 ->
  jwt_encode net (S (issued w2)) = Ok tok' ->
  let license := license_patch (str_id id) (license_type ld) tok' in
  send net (calls w2 ++ [patch; put]) license = Ok r3 ->
  status_code r3 = 204 ->
  exists tok1 tok2 w',
    update py net u nu ld gn s w = (Ok "SUCCESS: user was updated in Zoom.", w')
    /\ calls w' = (calls w ++ [lookup_request (upn u) tok1;
                               lookup_request (upnew nu) tok2;
                               patch; put; license])%list
    /\ issued w' = (4 + issued w)%nat.
Proof.
  intros Hne Hdiff H1 T1 H2 T2 Ht patch put Hs1 Hs2 H204 Ht' license Hs3 H3.
  destruct (findUserId_sent _ _ _ _ H1) as [I1 [[e [_ [? _]]]|[tok1 [_ C1]]]];
    [discriminate|].
  destruct (findUserId_sent _ _ _ _ H2) as [I2 [[e [_ [? _]]]|[tok2 [_ C2]]]];
    [discriminate|].
  destruct (@update_rename_runs py net u nu gn s id w1 taken w2 tok r1 r2
              Hdiff H2 T2 Ht Hs1 Hs2) as [w3 [Hr [C3 I3]]].
  rewrite <- I3 in Ht'.
  destruct (@update_license_runs py net u ld id w3 tok' Ht')
    as [w' [Hw [C' R']]].
  fold patch put in C3. rewrite <- C3 in Hs3.
  specialize (R' r3 Hs3). rewrite H3 in R'. cbn [Z.eqb Pos.eqb] in R'.
  exists tok1, tok2, w'.
  assert (E : update py net u nu ld gn s w = update_license py net u ld id w3).
  { unfold update. msimpl. rewrite update_check_pass by exact Hne.
    rewrite H1, T1. cbn [negb]. rewrite Hr. reflexivity. }
  rewrite E. split.
  - rewrite <- Hw, <- R'. now destruct (update_license py net u ld id w3).
  - split.
    + rewrite C', C3, C2, C1. fold license. now rewrite <- !app_assoc.
    + rewrite <- Hw. unfold update_license. msimpl. rewrite Ht'. msimpl.
      destruct (send net (calls w3) _) as [r|e];
        [destruct (negb (status_code r =? 204))|]; msimpl; lia.
Qed.

End UpdateMore.

(** ** More on delete *)

Section DeleteMore.

Variable py : PyRuntime.
Variable net : Remote.

(** An exception that leaves delete was raised by the lookup. *)
Lemma delete_raise_inv username w e :
  fst (delete py net username w) = Raise e ->
  fst (findUserId py net (upn username) w) = Raise e.
Proof.
  unfold delete. intros H.
  destruct (username =? "")%string; [discriminate H|].
  cbv zeta in H. fold (upn username) in H. msimpl.
  destruct (findUserId py net (upn username) w) as [[id|e'] w1];
    [|cbn [fst] in *; congruence].
  exfalso. destruct (negb (truthy id)); msimpl; [discriminate H|].
  revert H. generalize w1 e. fold (@safe string).
  change (safe (try_except
    (token <- generateToken net ;;
     response <- requests_delete net (users_url ++ str_id id)
                   (make_headers token) ;;
     (if negb (status_code response =? 204) then
        logging ERROR ("user was not deleted in Zoom: " ++ username) ;;;
        print ("ERROR: User " ++ username ++ " was not deleted in Zoom") ;;;
        ret "ERROR: could not delete user in Zoom."
      else
        logging INFO ("user deleted in Zoom: " ++ username) ;;;
        print ("SUCCESS: User " ++ username ++ " deleted in Zoom") ;;;
        ret "SUCCESS: user deleted in Zoom."))
    (fun e0 =>
       print ("ERROR: unknown error while deleting user: " ++ str_exn py e0) ;;;
       logging ERROR ("unknown error while deleting user " ++ username
                      ++ ": " ++ str_exn py e0) ;;;
       ret "ERROR: Could not delete Zoom user."))).
  repeat safe_step.
Qed.

(** X9. delete raises exactly when the username is not empty and the
    lookup raises; the DELETE call and its token are inside the [try]. *)
Theorem delete_raises_in_lookup_only username w e :
  (fst (delete py net username w) = Raise e ->
   username <> "" /\ fst (findUserId py net (upn username) w) = Raise e)
  /\ (username <> "" ->
      fst (findUserId py net (upn username) w) = Raise e ->
      fst (delete py net username w) = Raise e).
Proof.
  split.
  - intros H. split; [|now apply delete_raise_inv].
    intros ->. discriminate H.
  - intros Hne H. unfold delete.
    apply String.eqb_neq in Hne. rewrite Hne. cbv zeta.
    fold (upn username). msimpl.
    destruct (findUserId py net (upn username) w) as [[id|e'] w1];
      cbn [fst] in *; [discriminate|congruence].
Qed.

(** X10. Every request delete sends is a GET or a DELETE to the users
    endpoint with the bearer token in its headers and without a body:
    delete never sends a PATCH or a PUT. *)
Theorem delete_requests username w :
  exists new,
    calls (snd (delete py net username w)) = (calls w ++ new)%list
    /\ Forall (fun r =>
                 (method r = GET \/ method r = DELETE)
                 /\ (exists rest, url r = users_url ++ rest)
                 /\ (exists tok, headers r = make_headers tok)
                 /\ json r = None) new.
Proof.
  revert w. fold (sends (fun r =>
                 (method r = GET \/ method r = DELETE)
                 /\ (exists rest, url r = users_url ++ rest)
                 /\ (exists tok, headers r = make_headers tok)
                 /\ json r = None) (delete py net username)).
  unfold delete. cbv zeta.
  repeat first
    [ apply findUserId_sends_lookup; intros
    | sends_step ];
    (split; [auto|]); (split; [eexists; reflexivity|]);
    (split; [eexists; reflexivity|reflexivity]).
Qed.

Lemma delete_keeps_rows username : keeps out_rows (delete py net username).
Proof.
  unfold delete. cbv zeta.
  repeat first [ apply findUserId_keeps_rows | keeps_step ].
Qed.

End DeleteMore.

(** ** More on listusers *)

Section ListMore.

Variable py : PyRuntime.
Variable net : Remote.

Lemma pages_from_S first k :
  pages_from first (S k) = first :: pages_from (first + 1) k.
Proof.
  unfold pages_from. cbn [seq map]. rewrite Z.add_0_r. f_equal.
  rewrite <- seq_shift, map_map. apply map_ext. intros i. lia.
Qed.

Lemma print_users_keeps {X} (f : World -> X) users :
  (forall line, keeps f (print line)) -> keeps f (print_users py users).
Proof.
  intros Hf. induction users as [|user users IH]; cbn [print_users].
  - intros w. reflexivity.
  - apply keeps_bind; [intros w; reflexivity|]. intros line.
    apply keeps_bind; [apply Hf|]. intros _. exact IH.
Qed.

Lemma list_page_keeps {X} (f : World -> X) currentPage response :
  (forall line, keeps f (print line)) ->
  keeps f (list_page py currentPage response).
Proof.
  intros Hf. unfold list_page. cbv zeta.
  apply keeps_bind; [intros w; reflexivity|]. intros doc.
  apply keeps_bind.
  { destruct (currentPage =? 1); [apply Hf|intros w; reflexivity]. }
  intros _. apply keeps_bind; [intros w; reflexivity|]. intros users.
  apply keeps_bind; [now apply print_users_keeps|].
  intros _ w. reflexivity.
Qed.

(** The loop signs nothing, writes no row, and asks for consecutive pages
    starting at [currentPage]. *)
Lemma list_while_trace fuel : forall hdrs currentPage PagesLeft result w r w',
  list_while py net fuel hdrs currentPage PagesLeft result w = Some (r, w') ->
  issued w' = issued w /\ out_rows w' = out_rows w /\
  exists k,
    calls w'
    = (calls w ++ map (fun n => mkRequest GET (page_url n) None hdrs)
                      (pages_from currentPage k))%list.
Proof.
  induction fuel as [|fuel IH]; intros hdrs cp pl result w r w' H.
  - cbn [list_while] in H. destruct (pl =? 0); [|discriminate].
    inv H. split; [reflexivity|]. split; [reflexivity|].
    exists 0%nat. cbn. now rewrite app_nil_r.
  - destruct (Z.eq_dec pl 0) as [->|Hpl].
    { rewrite list_while_done in H. inv H.
      split; [reflexivity|]. split; [reflexivity|].
      exists 0%nat. cbn. now rewrite app_nil_r. }
    rewrite list_while_step in H by exact Hpl.
    unfold requests_get, request in H.
    set (req := mkRequest GET (page_url cp) None hdrs) in *.
    assert (Hone : forall w1,
               issued w1 = issued w -> out_rows w1 = out_rows w ->
               calls w1 = (calls w ++ [req])%list ->
               issued w1 = issued w /\ out_rows w1 = out_rows w /\
               exists k,
                 calls w1
                 = (calls w ++ map (fun n => mkRequest GET (page_url n) None hdrs)
                                   (pages_from cp k))%list).
    { intros w1 Hi Ho Hc. split; [exact Hi|]. split; [exact Ho|].
      exists 1%nat. rewrite Hc. unfold pages_from. cbn [seq map].
      rewrite Z.add_0_r. reflexivity. }
    destruct (send net (calls w) req) as [resp|e].
    2:{ inv H. now apply Hone. }
    destruct (negb (status_code resp =? 200)).
    { msimpl. inv H. now apply Hone. }
    match type of H with
    | context [list_page py cp resp ?w0] =>
        pose proof (@list_page_keeps _ calls cp resp
                      (fun _ _ => eq_refl) w0) as Kc;
        pose proof (@list_page_keeps _ issued cp resp
                      (fun _ _ => eq_refl) w0) as Ki;
        pose proof (@list_page_keeps _ out_rows cp resp
                      (fun _ _ => eq_refl) w0) as Ko;
        destruct (list_page py cp resp w0) as [[left|e] w2]
    end; cbn [snd calls issued out_rows] in *.
    2:{ inv H. now apply Hone. }
    apply IH in H. cbn [snd logging calls issued out_rows] in H.
    destruct H as [Hi [Ho [k Hc]]].
    split; [congruence|]. split; [congruence|].
    exists (S k). rewrite Hc, Kc, pages_from_S. cbn [map].
    now rewrite <- app_assoc.
Qed.

(** listusers keeps the exceptions of its body to itself. *)
Lemma listusers_no_raise fuel w e w' :
  listusers py net fuel w <> Some (Raise e, w').
Proof.
  unfold listusers. intros H.
  destruct (listusers_try py net fuel w) as [[[[result|]|e0] w1]|] eqn:Ht;
    try discriminate.
  unfold listusers_try in Ht. msimpl.
  destruct (jwt_encode net (issued w)) as [tok|e1]; [|discriminate].
  apply list_while_ends in Ht; [|discriminate].
  destruct Ht
    as [[e1 He]
       |[[hist [req [resp [_ [_ [_ He]]]]]]
        |[hist [req [resp [doc [c [_ [_ [_ [_ [_ [_ He]]]]]]]]]]]]];
    discriminate.
Qed.

Lemma listusers_keeps_rows fuel w r w' :
  listusers py net fuel w = Some (r, w') -> out_rows w' = out_rows w.
Proof.
  unfold listusers, listusers_try. msimpl. intros H.
  destruct (jwt_encode net (issued w)) as [tok|e].
  - destruct (list_while py net fuel (make_headers tok) 1 1 None _)
      as [[o w1]|] eqn:Hl; [|discriminate].
    apply list_while_trace in Hl. cbn [out_rows] in Hl.
    destruct Hl as [_ [Ho _]].
    destruct o as [[result|]|e]; msimpl; inv H; exact Ho.
  - msimpl. now inv H.
Qed.

(** X11. listusers never raises: every exception is caught by its
    [try], and it returns one of its three result strings. *)
Theorem listusers_never_raises fuel w r w' :
  listusers py net fuel w = Some (r, w') ->
  r = Ok "SUCCESS: got the list of Zoom users."
  \/ r = Ok "ERROR: did not get list of Zoom users."
  \/ r = Ok "ERROR: Could not get the list of Zoom users.".
Proof.
  unfold listusers. intros H.
  destruct (listusers_try py net fuel w) as [[[[result|]|e] w1]|] eqn:Ht;
    try discriminate.
  - inv H. unfold listusers_try in Ht. msimpl.
    destruct (jwt_encode net (issued w)) as [tok|e]; [|discriminate].
    apply list_while_ends in Ht; [|discriminate].
    destruct Ht
      as [[e He]
         |[[hist [req [resp [_ [_ [_ He]]]]]]
          |[hist [req [resp [doc [c [_ [_ [_ [_ [_ [_ He]]]]]]]]]]]]];
      [discriminate| |]; inv He; auto.
  - exfalso. unfold listusers_try in Ht. msimpl.
    destruct (jwt_encode net (issued w)) as [tok|e]; [|discriminate].
    apply list_while_ends in Ht; [|discriminate].
    destruct Ht
      as [[e He]
         |[[hist [req [resp [_ [_ [_ He]]]]]]
          |[hist [req [resp [doc [c [_ [_ [_ [_ [_ [_ He]]]]]]]]]]]]];
      discriminate.
  - msimpl. inv H. auto.
Qed.

(** X12. listusers signs one token, whatever the number of pages, and
    sends every page request with it; the pages it asks for are 1, 2, ...
    up to the last one, without a gap or a repeat, and it sends nothing
    else.  When the token cannot be signed it sends nothing. *)
Theorem listusers_pages_in_order fuel w r w' :
  listusers py net fuel w = Some (r, w') ->
  issued w' = S (issued w)
  /\ out_rows w' = out_rows w
  /\ (forall e, jwt_encode net (issued w) = Raise e -> calls w' = calls w)
  /\ (forall tok,
         jwt_encode net (issued w) = Ok tok ->
         exists k,
           calls w' = (calls w ++ map (fun n => page_request n tok)
                                      (pages_from 1 k))%list).
Proof.
  unfold listusers, listusers_try. msimpl. intros H.
  destruct (jwt_encode net (issued w)) as [tok|e] eqn:Ht.
  - destruct (list_while py net fuel (make_headers tok) 1 1 None _)
      as [[o w1]|] eqn:Hl; [|discriminate].
    apply list_while_trace in Hl. cbn [calls issued out_rows] in Hl.
    destruct Hl as [Hi [Ho [k Hc]]].
    assert (E : issued w' = issued w1 /\ out_rows w' = out_rows w1
                /\ calls w' = calls w1).
    { destruct o as [[result|]|e]; msimpl; inv H; auto. }
    destruct E as [Ei [Eo Ec]].
    split; [congruence|]. split; [congruence|].
    split; [intros e He; discriminate He|].
    intros tok' E. inv E. exists k. now rewrite Ec, Hc.
  - msimpl. inv H. cbn [calls issued out_rows].
    split; [reflexivity|]. split; [reflexivity|].
    split; [reflexivity|]. intros tok E. discriminate E.
Qed.

(** The loop on [k] more pages of a listing of [total] pages whose
    responses echo the page number. *)
Lemma list_while_all_pages hdrs total lines :
  (forall hist n, 1 <= n <= total ->
     exists resp,
       send net hist (mkRequest GET (page_url n) None hdrs) = Ok resp
       /\ reports py resp total n (lines n)) ->
  forall k fuel currentPage PagesLeft result w,
    PagesLeft <> 0 -> 1 <= currentPage ->
    currentPage + Z.of_nat k = total ->
    (S k <= fuel)%nat ->
    exists w',
      list_while py net fuel hdrs currentPage PagesLeft result w
      = Some (Ok (Some "SUCCESS: got the list of Zoom users."), w')
      /\ calls w'
         = (calls w ++ map (fun n => mkRequest GET (page_url n) None hdrs)
                           (pages_from currentPage (S k)))%list
      /\ stdout w'
         = (stdout w ++ (if currentPage =? 1 then [list_header] else [])
                     ++ concat (map lines (pages_from currentPage (S k))))%list.
Proof.
  intros Hpages. induction k as [|k IH];
    intros fuel cp pl result w Hpl Hcp Htot Hfuel;
    (destruct fuel as [|fuel]; [lia|]);
    (destruct (Hpages (calls w) cp) as [resp [Hs Hr]]; [lia|]);
    rewrite (@list_while_page py net fuel hdrs cp pl result w resp total cp
               (lines cp) Hpl Hs Hr).
  - replace (total - cp) with 0 by lia. rewrite list_while_done.
    eexists. split; [reflexivity|]. cbn [calls stdout].
    unfold pages_from. cbn [seq map concat]. rewrite Z.add_0_r, app_nil_r.
    split; reflexivity.
  - edestruct (IH fuel (cp + 1) (total - cp)) as [w' [E [Hc Hp]]];
      [lia|lia|lia|lia|].
    exists w'. split; [exact E|]. rewrite Hc, Hp. cbn [calls stdout].
    rewrite (pages_from_S cp (S k)). cbn [map concat].
    replace (cp + 1 =? 1) with false by (symmetry; apply Z.eqb_neq; lia).
    cbn [app]. rewrite <- !app_assoc. split; reflexivity.
Qed.

(** X13. A listing of any number of pages: when the pages 1 to [total]
    are 200 responses that report [total] pages and the page number asked
    for, listusers with enough fuel asks for exactly the pages 1 to
    [total], in order, prints the header once and then the users page by
    page, and returns the success string. *)
Theorem listusers_all_pages w tok total (lines : Z -> list string) fuel :
  1 <= total ->
  jwt_encode net (issued w) = Ok tok ->
  (forall hist n, 1 <= n <= total ->
     exists resp,
       send net hist (page_request n tok) = Ok resp
       /\ reports py resp total n (lines n)) ->
  (Z.to_nat total <= fuel)%nat ->
  exists w',
    listusers py net fuel w
    = Some (Ok "SUCCESS: got the list of Zoom users.", w')
    /\ calls w' = (calls w ++ map (fun n => page_request n tok)
                                  (pages_from 1 (Z.to_nat total)))%list
    /\ stdout w' = (stdout w ++ list_header
                      :: concat (map lines (pages_from 1 (Z.to_nat total))))%list.
Proof.
  intros Htot Ht Hpages Hfuel.
  unfold listusers, listusers_try. msimpl. rewrite Ht.
  destruct (Z.to_nat total) as [|k] eqn:Hk; [lia|].
  edestruct (@list_while_all_pages (make_headers tok) total lines Hpages k fuel
               1 1 None) as [w' [E [Hc Hp]]];
    [discriminate|lia|lia|lia|].
  rewrite E. exists w'. split; [reflexivity|].
  rewrite Hc, Hp. cbn [calls stdout]. split; reflexivity.
Qed.

(** X14. A user that cannot be printed (a missing field, or a field that
    is not a string) ends the listing with the generic error: the header
    and the lines of the users before it on the first page stay printed,
    no further page is asked for, and the exception is reported. *)
Theorem listusers_malformed_user w tok resp doc good lines bad rest e fuel :
  jwt_encode net (issued w) = Ok tok ->
  send net (calls w) (page_request 1 tok) = Ok resp ->
  status_code resp = 200 ->
  json_loads py (text resp) = Ok doc ->
  obind (subscript doc "users") py_iter = Ok (good ++ bad :: rest)%list ->
  Forall2 (fun user line => user_line py user = Ok line) good lines ->
  user_line py bad = Raise e ->
  exists w',
    listusers py net (S fuel) w
    = Some (Ok "ERROR: Could not get the list of Zoom users.", w')
    /\ calls w' = (calls w ++ [page_request 1 tok])%list
    /\ stdout w'
       = (stdout w ++ list_header :: lines
                   ++ [("ERROR: unknown error while getting the list of "
                        ++ "Zoom users: " ++ str_exn py e)%string])%list.
Proof.
  intros Ht Hs H200 Hd Hu Hgood Hbad.
  assert (Hprint : forall w0,
             print_users py (good ++ bad :: rest) w0
             = (Raise e, printed w0 lines)).
  { clear - Hgood Hbad. induction Hgood as [|user line good lines Hl _ IH];
      intros w0; cbn [print_users app]; msimpl.
    - rewrite Hbad. unfold printed. rewrite app_nil_r. now destruct w0.
    - rewrite Hl. msimpl. rewrite IH. unfold printed.
      cbn [calls issued stdout zoom_log out_rows].
      now rewrite <- app_assoc. }
  unfold listusers, listusers_try. msimpl. rewrite Ht.
  rewrite list_while_step by discriminate.
  unfold requests_get, request, page_request in *. cbn [calls].
  rewrite Hs, H200. cbn [Z.eqb Pos.eqb negb].
  unfold list_page. msimpl. rewrite Hd. cbn [Z.eqb Pos.eqb]. msimpl.
  rewrite Hu, Hprint. unfold printed. msimpl.
  eexists. split; [reflexivity|]. cbn [calls stdout].
  rewrite <- !app_assoc. split; reflexivity.
Qed.

End ListMore.

(** ** The batch runner *)

Section BatchProofs.

Variable py : PyRuntime.
Variable net : Remote.

Lemma update_keeps_rows u nu ld gn s :
  keeps out_rows (update py net u nu ld gn s).
Proof.
  unfold update. apply keeps_bind.
  - induction (locals_order py) as [|p items IH]; cbn [update_check].
    + intros w. reflexivity.
    + repeat keeps_step. exact IH.
  - intros c. unfold update_rename, update_rename_try, rename_result,
      update_license.
    repeat first [ apply findUserId_keeps_rows | keeps_step ].
Qed.

Lemma str_unicode_ascii s : Py.is_ascii s = true -> str_unicode s = Ok s.
Proof. intros H. unfold str_unicode. now rewrite H. Qed.

Lemma ascii_row_fields row :
  ascii_row row = true ->
  Py.is_ascii (action row) = true /\ Py.is_ascii (username row) = true
  /\ Py.is_ascii (newusername row) = true
  /\ Py.is_ascii (loginDisabled row) = true
  /\ Py.is_ascii (givenName row) = true /\ Py.is_ascii (sn row) = true.
Proof.
  unfold ascii_row. intros H.
  repeat (apply andb_prop in H; destruct H as [H ?]). auto 7.
Qed.

(** No branch of the loop writes to the output file. *)
Lemma dispatch_keeps_rows fuel row w r w1 :
  dispatch py net fuel row w = Some (r, w1) -> out_rows w1 = out_rows w.
Proof.
  unfold dispatch. intros H.
  destruct (action row =? "update")%string.
  { injection H as H.
    match type of H with
    | ?m w = _ =>
        assert (K : keeps out_rows m)
          by (repeat first [ apply update_keeps_rows | keeps_step ])
    end.
    specialize (K w). now rewrite H in K. }
  destruct (action row =? "delete")%string.
  { injection H as H.
    match type of H with
    | ?m w = _ =>
        assert (K : keeps out_rows m)
          by (repeat first [ apply delete_keeps_rows | keeps_step ])
    end.
    specialize (K w). now rewrite H in K. }
  destruct (action row =? "listusers")%string.
  { now apply listusers_keeps_rows in H. }
  injection H as H.
  match type of H with
  | ?m w = _ => assert (K : keeps out_rows m) by (repeat keeps_step)
  end.
  specialize (K w). now rewrite H in K.
Qed.

(** The csv writer writes the row of the action, or raises and writes
    nothing. *)
Lemma write_result_rows row result w o w' :
  write_result row result w = (o, w') ->
  (o = Ok tt /\ out_rows w' = (out_rows w ++ [row_of row result])%list)
  \/ ((exists e, o = Raise e) /\ w' = w).
Proof.
  unfold write_result, str_unicode, row_of. msimpl. intros H.
  destruct (Py.is_ascii (action row)); msimpl.
  - destruct (Py.is_ascii (username row)); msimpl; inv H.
    + left. split; reflexivity.
    + right. split; [now eexists|reflexivity].
  - inv H. right. split; [now eexists|reflexivity].
Qed.

Lemma write_result_ascii row result w :
  Py.is_ascii (action row) = true ->
  Py.is_ascii (username row) = true ->
  write_result row result w = writerow (row_of row result) w.
Proof.
  intros Ha Hu. unfold write_result, str_unicode, row_of.
  rewrite Ha, Hu. reflexivity.
Qed.

(** The loop of [main] writes one row per action it completes, in order,
    and stops at the first action whose handler raises. *)
Lemma process_rows fuel rows : forall w r w',
  process py net fuel rows w = Some (r, w') ->
  exists results,
    (length results <= length rows)%nat
    /\ out_rows w'
       = (out_rows w ++ map (fun p => row_of (fst p) (snd p))
                            (combine rows results))%list
    /\ (r = Ok tt <-> length results = length rows).
Proof.
  induction rows as [|row rows IH]; intros w r w' H; cbn [process] in H.
  - inv H. exists []. cbn. rewrite app_nil_r. repeat split; auto.
  - destruct (dispatch py net fuel row w) as [[[result|e] w1]|] eqn:Hd;
      [| |discriminate].
    + apply dispatch_keeps_rows in Hd.
      destruct (write_result row result w1) as [o w2] eqn:Hw.
      destruct (write_result_rows _ _ _ Hw) as [[-> Hw2]|[[e ->] ->]].
      * apply IH in H. destruct H as [results [Hl [Ho Hr]]].
        exists (result :: results). cbn [length combine map fst snd].
        split; [lia|]. split.
        -- rewrite Ho, Hw2, Hd. now rewrite <- app_assoc.
        -- rewrite Hr. split; intros E; lia.
      * inv H. exists []. cbn [length combine map]. rewrite app_nil_r.
        split; [lia|]. split; [exact Hd|]. split; [discriminate|].
        intros E. discriminate E.
    + apply dispatch_keeps_rows in Hd. inv H.
      exists []. cbn [length combine map]. rewrite app_nil_r.
      split; [lia|]. split; [exact Hd|]. split; [discriminate|].
      intros E. discriminate E.
Qed.

(** After its loop [main] only prints and logs. *)
Lemma main_rows in_file out_file rows fuel w r w' :
  main py net in_file out_file rows fuel w = Some (r, w') ->
  exists o w1,
    process py net fuel rows
      (snd ((logging INFO ("opened input file: " ++ in_file) ;;;
             logging INFO ("opened output file: " ++ out_file) ;;;
             writerow ["action"; "username"; "result"]) w))
    = Some (o, w1)
    /\ r = Ok tt /\ out_rows w' = out_rows w1.
Proof.
  unfold main. cbv zeta. intros H.
  destruct (process py net fuel rows _) as [[[[]|e] w1]|] eqn:Hp;
    [| |discriminate].
  - exists (Ok tt), w1. split; [reflexivity|]. msimpl. now inv H.
  - exists (Raise e), w1. split; [reflexivity|].
    destruct (is_IOError e); msimpl; now inv H.
Qed.

(** X15. [main] never raises out of its loop, and what it writes is the
    header followed by one row per action for a first part of the input,
    in the order of the input, each with the action and the username of
    its action: rows are never reordered, repeated or written for a later
    action after one was skipped. *)
Theorem main_writes_prefix in_file out_file rows fuel w r w' :
  main py net in_file out_file rows fuel w = Some (r, w') ->
  r = Ok tt
  /\ exists results,
      (length results <= length rows)%nat
      /\ out_rows w'
         = (out_rows w ++ ["action"; "username"; "result"]
              :: map (fun p => row_of (fst p) (snd p))
                     (combine rows results))%list.
Proof.
  intros H. apply main_rows in H. destruct H as [o [w1 [Hp [-> Ho]]]].
  split; [reflexivity|].
  apply process_rows in Hp. destruct Hp as [results [Hl [Hr _]]].
  exists results. split; [exact Hl|].
  rewrite Ho, Hr. cbn [snd out_rows]. msimpl.
  now rewrite <- app_assoc.
Qed.

(** With a resolver that does not raise, no branch raises on a row of
    ASCII fields. *)
Lemma dispatch_no_raise fuel row w e w1 :
  (forall upn w0 e0, fst (findUserId py net upn w0) <> Raise e0) ->
  ascii_row row = true ->
  dispatch py net fuel row w <> Some (Raise e, w1).
Proof.
  intros Hres Hrow H. unfold dispatch in H.
  destruct (ascii_row_fields _ Hrow) as [Ha [Hu [Hn [Hl [Hg Hs]]]]].
  rewrite !str_unicode_ascii in H by assumption.
  destruct (action row =? "update")%string.
  { injection H as H. msimpl.
    apply (Hres (upn (username row)) w e).
    apply (@update_raise_inv py net _ (newusername row) (loginDisabled row)
             (givenName row) (sn row)).
    now rewrite H. }
  destruct (action row =? "delete")%string.
  { injection H as H. msimpl. apply (Hres (upn (username row)) w e).
    apply delete_raise_inv. now rewrite H. }
  destruct (action row =? "listusers")%string.
  { now apply listusers_no_raise in H. }
  msimpl. discriminate H.
Qed.

Lemma process_no_raise fuel rows :
  (forall upn w0 e0, fst (findUserId py net upn w0) <> Raise e0) ->
  Forall (fun row => ascii_row row = true) rows ->
  forall w o w1, process py net fuel rows w = Some (o, w1) -> o = Ok tt.
Proof.
  intros Hres. induction 1 as [|row rows Hrow _ IH]; intros w o w1 H;
    cbn [process] in H.
  - now inv H.
  - destruct (dispatch py net fuel row w) as [[[result|e] w2]|] eqn:Hd;
      [| |discriminate].
    + destruct (ascii_row_fields _ Hrow) as [Ha [Hu _]].
      rewrite write_result_ascii in H by assumption.
      exact (IH _ _ _ H).
    + now apply dispatch_no_raise in Hd.
Qed.

(** Without a [listusers] action the loop ends, whatever the fuel. *)
Lemma process_ends fuel rows :
  Forall (fun row => action row <> "listusers") rows ->
  forall w, exists o w1, process py net fuel rows w = Some (o, w1).
Proof.
  induction 1 as [|row rows Hl _ IH]; intros w; cbn [process].
  - now exists (Ok tt), w.
  - assert (Hd : exists o w1, dispatch py net fuel row w = Some (o, w1)).
    { unfold dispatch. apply String.eqb_neq in Hl. rewrite Hl.
      destruct (action row =? "update")%string;
        [|destruct (action row =? "delete")%string];
        match goal with
        | |- exists o w1, Some ?x = _ =>
            destruct x as [o w1]; exists o, w1; reflexivity
        end. }
    destruct Hd as [[result|e] [w1 ->]].
    + destruct (write_result row result w1) as [[[]|e] w2].
      * apply IH.
      * now exists (Raise e), w2.
    + now exists (Raise e), w1.
Qed.

(** X16. When the resolver does not raise and every field of every
    action is ASCII, a run that ends has written exactly one row per input
    action, in the order of the input, whatever the handlers return; and
    a run without a [listusers] action ends, whatever the fuel. *)
Theorem main_writes_all_rows in_file out_file rows fuel w :
  (forall upn w0 e0, fst (findUserId py net upn w0) <> Raise e0) ->
  Forall (fun row => ascii_row row = true) rows ->
  (forall r w',
      main py net in_file out_file rows fuel w = Some (r, w') ->
      exists results,
        length results = length rows
        /\ out_rows w'
           = (out_rows w ++ ["action"; "username"; "result"]
                :: map (fun p => row_of (fst p) (snd p))
                       (combine rows results))%list)
  /\ (Forall (fun row => action row <> "listusers") rows ->
      exists r w', main py net in_file out_file rows fuel w = Some (r, w')).
Proof.
  intros Hres Hrows. split.
  - intros r w' H. apply main_rows in H. destruct H as [o [w1 [Hp [_ Ho]]]].
    pose proof (@process_no_raise fuel rows Hres Hrows _ _ _ Hp) as ->.
    apply process_rows in Hp. destruct Hp as [results [_ [Hr Hl]]].
    exists results. split; [now apply Hl|].
    rewrite Ho, Hr. cbn [snd out_rows]. msimpl.
    now rewrite <- app_assoc.
  - intros Hl. unfold main. cbv zeta.
    match goal with
    | |- context [process py net fuel rows ?w0] =>
        destruct (@process_ends fuel rows Hl w0) as [o [w1 E]]
    end.
    rewrite E. destruct o as [[]|e]; [|destruct (is_IOError e)];
      match goal with
      | |- exists r w', Some ?x = _ =>
          destruct x as [r w']; exists r, w'; reflexivity
      end.
Qed.

(** The loop of [main] on actions of unknown kinds. *)
Lemma process_unrecognized fuel rows :
  Forall (fun row => action row <> "update" /\ action row <> "delete"
                     /\ action row <> "listusers"
                     /\ Py.is_ascii (action row) = true
                     /\ Py.is_ascii (username row) = true) rows ->
  forall w, exists w',
    process py net fuel rows w = Some (Ok tt, w')
    /\ out_rows w'
       = (out_rows w ++ map (fun row => row_of row "ERROR: Unrecognized action.")
                            rows)%list
    /\ calls w' = calls w /\ issued w' = issued w.
Proof.
  induction 1 as [|row rows [Hu [Hd [Hl [Ha Hn]]]] _ IH]; intros w;
    cbn [process].
  - exists w. cbn. now rewrite app_nil_r.
  - unfold dispatch.
    apply String.eqb_neq in Hu, Hd, Hl. rewrite Hu, Hd, Hl.
    rewrite (str_unicode_ascii _ Ha). msimpl.
    rewrite (write_result_ascii _ _ _ Ha Hn). unfold row_of at 1. msimpl.
    match goal with
    | |- context [process py net fuel rows ?w0] =>
        destruct (IH w0) as [w' [E [Ho [Hc Hi]]]]
    end.
    exists w'. split; [exact E|]. cbn [calls issued out_rows] in *.
    rewrite Ho, <- app_assoc. auto.
Qed.

(** X17. A batch of actions of unknown kinds whose action and username
    are ASCII: every action gets its row with the unrecognized-action
    error, in order, and the run signs no token and sends no request,
    whatever the fuel. *)
Theorem main_unrecognized in_file out_file rows fuel w :
  Forall (fun row => action row <> "update" /\ action row <> "delete"
                     /\ action row <> "listusers"
                     /\ Py.is_ascii (action row) = true
                     /\ Py.is_ascii (username row) = true) rows ->
  exists w',
    main py net in_file out_file rows fuel w = Some (Ok tt, w')
    /\ out_rows w'
       = (out_rows w ++ ["action"; "username"; "result"]
            :: map (fun row => row_of row "ERROR: Unrecognized action.") rows
         )%list
    /\ calls w' = calls w /\ issued w' = issued w.
Proof.
  intros Hrows. unfold main. cbv zeta.
  match goal with
  | |- context [process py net fuel rows ?w0] =>
      destruct (@process_unrecognized fuel rows Hrows w0)
        as [w' [E [Ho [Hc Hi]]]]
  end.
  rewrite E. msimpl. eexists. split; [reflexivity|].
  cbn [calls issued out_rows] in *. rewrite Ho, <- app_assoc. auto.
Qed.

End BatchProofs.

(** ** Parsing a well-formed lookup response *)

Section Parsing.

Lemma char_free_app c s t :
  char_free c (s ++ t) = char_free c s && char_free c t.
Proof.
  induction s as [|a s IH]; cbn [append char_free]; [reflexivity|].
  now rewrite IH, andb_assoc.
Qed.

Lemma split_free c s : char_free c s = true -> Py.split c s = [s].
Proof.
  induction s as [|a s IH]; cbn [char_free Py.split]; [reflexivity|].
  intros H. apply andb_prop in H. destruct H as [Ha Hs].
  apply negb_true_iff in Ha. rewrite Ha, (IH Hs). reflexivity.
Qed.

Lemma split_at c s t :
  char_free c s = true -> Py.split c (s ++ String c t) = s :: Py.split c t.
Proof.
  induction s as [|a s IH]; cbn [char_free Py.split append].
  - intros _. now rewrite Ascii.eqb_refl.
  - intros H. apply andb_prop in H. destruct H as [Ha Hs].
    apply negb_true_iff in Ha. rewrite Ha, (IH Hs). reflexivity.
Qed.

Lemma remove_free c s : char_free c s = true -> Py.remove c s = s.
Proof.
  induction s as [|a s IH]; cbn [char_free Py.remove]; [reflexivity|].
  intros H. apply andb_prop in H. destruct H as [Ha Hs].
  apply negb_true_iff in Ha. rewrite Ha, (IH Hs). reflexivity.
Qed.

Lemma append_empty s : s ++ "" = s.
Proof. induction s as [|a s IH]; cbn [append]; [reflexivity|now rewrite IH]. Qed.

Lemma remove_app c s t :
  Py.remove c (s ++ t) = Py.remove c s ++ Py.remove c t.
Proof.
  induction s as [|a s IH]; cbn [append Py.remove]; [reflexivity|].
  destruct (Ascii.eqb a c); cbn [append]; now rewrite IH.
Qed.

Variable py : PyRuntime.
Variable net : Remote.

(** X18. The resolver on a well-formed body.  When the 200 body is
    ASCII, starts with the id as its first field, written without spaces,
    and contains the address, and the id has no comma, colon or double
    quote in it, the resolver returns that id, silently. *)
Theorem findUserId_wellformed upn w tok id rest :
  char_free "," id = true ->
  char_free ":" id = true ->
  char_free Py.dquote id = true ->
  let body := "{" ++ Py.quoted "id" ++ ":" ++ Py.quoted id ++ "," ++ rest in
  Py.contains upn body = true ->
  Py.is_ascii body = true ->
  jwt_encode net (issued w) = Ok tok ->
  send net (calls w) (lookup_request upn tok) = Ok (mkResponse 200 body) ->
  findUserId py net upn w
  = (Ok (IdStr id), after w [lookup_request upn tok] 1 [] []).
Proof.
  intros Hcomma Hcolon Hquote body Hin Hbody Ht Hs.
  pose proof (contains_ascii _ _ Hin Hbody) as Hupn.
  set (key := "{" ++ Py.quoted "id").
  assert (Hq : forall c, char_free c id = true ->
                         Ascii.eqb Py.dquote c = false ->
                         char_free c (Py.quoted id) = true).
  { intros c Hc Hd. unfold Py.quoted. cbn [char_free].
    rewrite Hd, char_free_app, Hc. cbn [char_free negb andb].
    now rewrite Hd. }
  assert (Hfield : nth 0 (Py.split "," body) "" = key ++ ":" ++ Py.quoted id).
  { change body with ((key ++ ":" ++ Py.quoted id) ++ String "," rest).
    - rewrite split_at; [reflexivity|].
      change (key ++ ":" ++ Py.quoted id)
        with (String "{" (Py.quoted "id" ++ ":") ++ Py.quoted id).
      rewrite char_free_app, Hq by (exact Hcomma || reflexivity).
      reflexivity. }
  assert (Hlst : Py.split ":" (key ++ ":" ++ Py.quoted id)
                 = [key; Py.quoted id]).
  { change (key ++ ":" ++ Py.quoted id)
      with (key ++ String ":" (Py.quoted id)).
    rewrite split_at by reflexivity.
    rewrite split_free; [reflexivity|]. apply Hq; [exact Hcolon|reflexivity]. }
  assert (Hid : Py.remove Py.dquote (Py.quoted id) = id).
  { unfold Py.quoted. cbn [Py.remove]. rewrite Ascii.eqb_refl.
    rewrite remove_app, (remove_free _ _ Hquote). cbn [Py.remove].
    rewrite Ascii.eqb_refl. cbn [Py.remove]. apply append_empty. }
  unfold findUserId, findUserId_try, str_unicode, after.
  fold (lookup_request upn).
  msimpl. rewrite Ht. msimpl. fold (lookup_request upn tok). rewrite Hs.
  cbn [status_code text Z.eqb Pos.eqb]. fold body. rewrite Hupn, Hin, Hbody.
  cbn [negb]. msimpl. rewrite Hfield, Hlst. cbn [nth nth_error].
  fold key. rewrite String.eqb_refl, Hid, !app_nil_r. reflexivity.
Qed.

End Parsing.

(** ** Start-up *)

Section StartupProofs.

Variable import_module : string -> started (list (string * string)).
Variable str_config_exn : config_exn -> string.

Lemma substring_skip s t m :
  String.substring (String.length s) m (s ++ t) = String.substring 0 m t.
Proof. induction s as [|a s IH]; cbn; [reflexivity|exact IH]. Qed.

Lemma substring_take s t :
  String.substring 0 (String.length s) (s ++ t) = s.
Proof.
  induction s as [|a s IH]; cbn; [now destruct t|]. now rewrite IH.
Qed.

Lemma length_py name :
  (String.length (name ++ ".py") - 3 = String.length name)%nat.
Proof.
  induction name as [|a name IH]; cbn [append String.length]; [reflexivity|].
  assert (3 <= String.length (name ++ ".py"))%nat
    by (clear IH; induction name; cbn [append String.length]; lia).
  lia.
Qed.

(** The suffix test and the slice of [readConfig] on a name in [.py]. *)
Lemma strip_py name :
  last3 (name ++ ".py") = ".py" /\ but_last3 (name ++ ".py") = name.
Proof.
  unfold last3, but_last3. rewrite length_py. split.
  - now rewrite substring_skip.
  - apply substring_take.
Qed.

(** X19. readConfig on a file name in [.py] imports the module of that
    name without the suffix.  It returns [True] exactly when the import
    succeeds and the module has both API_KEY and API_SEC, and then both
    globals hold the module's values and nothing was printed or logged; a
    failing import is not caught and leaves the globals as they were. *)
Theorem readConfig_true_iff name g w :
  (forall g' w',
      readConfig import_module str_config_exn (name ++ ".py") g w
      = (Started true, g', w')
      <-> exists module key sec,
          import_module name = Started module
          /\ getattr module "API_KEY" = Some key
          /\ getattr module "API_SEC" = Some sec
          /\ g' = mkGlobals (Some key) (Some sec) /\ w' = w)
  /\ (forall e,
         import_module name = Failed e ->
         readConfig import_module str_config_exn (name ++ ".py") g w
         = (Failed e, g, w)).
Proof.
  unfold readConfig. destruct (strip_py name) as [-> ->].
  rewrite String.eqb_refl. split.
  - intros g' w'. split.
    + intros H. destruct (import_module name) as [module|e]; [|discriminate].
      destruct (getattr module "API_KEY") as [key|] eqn:Hk;
        [|discriminate].
      destruct (getattr module "API_SEC") as [sec|] eqn:Hs;
        [|discriminate].
      inv H. exists module, key, sec. auto.
    + intros [module [key [sec [Hi [Hk [Hs [-> ->]]]]]]].
      now rewrite Hi, Hk, Hs.
  - intros e Hi. now rewrite Hi.
Qed.

(** X20. A settings module with a key but no secret: readConfig returns
    [False] and reports the problem, but the global API_KEY has already
    been replaced by the new key while API_SEC keeps its old value. *)
Theorem readConfig_half_set name g w module key :
  import_module name = Started module ->
  getattr module "API_KEY" = Some key ->
  getattr module "API_SEC" = None ->
  readConfig import_module str_config_exn (name ++ ".py") g w
  = (Started false,
     mkGlobals (Some key) (API_SEC g),
     after w [] 0
       [("ERROR: unable to parse the settings file: "
         ++ str_config_exn (AttributeError "API_SEC"))%string]
       [(ERROR, "unable to parse settings file")]).
Proof.
  intros Hi Hk Hs. unfold readConfig.
  destruct (strip_py name) as [-> ->]. rewrite String.eqb_refl.
  rewrite Hi, Hk, Hs. unfold readConfig_except, after. msimpl.
  now rewrite app_nil_r.
Qed.

End StartupProofs.

Section FilesProofs.

Variable py : PyRuntime.
Variable net : Remote.

(** X21. Files that do not open.  When the input file cannot be opened,
    or the output file cannot, [main] prints and logs the problem and then
    raises from its [finally] clause, which closes a file variable that was
    never bound; nothing is written, signed or sent.  When the input does
    not decode, [main] reports it and returns, having written no row, not
    even the header. *)
Theorem main_files_failures in_file out_file fuel w :
  (forall out_opens,
      exists w',
        main_files py net Unreadable out_opens in_file out_file fuel w
        = Some (Raise (UnboundLocalError "f_in"), w')
        /\ stdout w' = (stdout w
                        ++ ["ERROR: Unable to open input/output file!"])%list
        /\ out_rows w' = out_rows w /\ calls w' = calls w
        /\ issued w' = issued w)
  /\ (forall input,
         input <> Unreadable ->
         exists w',
           main_files py net input false in_file out_file fuel w
           = Some (Raise (UnboundLocalError "f_out"), w')
           /\ stdout w' = (stdout w
                           ++ ["ERROR: Unable to open input/output file!"])%list
           /\ out_rows w' = out_rows w /\ calls w' = calls w
           /\ issued w' = issued w)
  /\ (forall e,
         exists w',
           main_files py net (NotJson e) true in_file out_file fuel w
           = Some (Ok tt, w')
           /\ out_rows w' = out_rows w /\ calls w' = calls w
           /\ issued w' = issued w)
  /\ (forall rows,
         main_files py net (Actions rows) true in_file out_file fuel w
         = main py net in_file out_file rows fuel w).
Proof.
  split; [|split; [|split]].
  - intros out_opens. unfold main_files, main_except_open. msimpl.
    eexists. split; [reflexivity|]. cbn [stdout out_rows calls issued]. auto.
  - intros input Hin. unfold main_files, main_except_open. msimpl.
    destruct input as [|e|e|rows]; [contradiction| | |];
      eexists; (split; [reflexivity|]);
      cbn [stdout out_rows calls issued]; auto.
  - intros e. unfold main_files, main_except. msimpl.
    destruct (is_IOError e); msimpl;
      eexists; (split; [reflexivity|]);
      cbn [stdout out_rows calls issued]; auto.
  - intros rows. reflexivity.
Qed.

End FilesProofs.

(** ** Instances of the further theorems *)

Section MoreWitnesses.

Import Scenario.

Lemma delete_without_user_witness :
  (exists w',
      delete runtime net_down "" world0
      = (Ok "ERROR: Missing an expected input value for username in input file.",
         w')
      /\ calls w' = [] /\ issued w' = 0%nat)
  /\ (exists w',
         delete runtime (net_const 404 "") "ghost" world0
         = (Ok "ERROR: user could not be found in Zoom!", w')
         /\ calls w' = [lookup_request "ghost@xyz.com" "tok"])
  /\ (exists w',
         delete runtime (net_const 200 (user_body "" "ghost@xyz.com"))
                "ghost" world0
         = (Ok "ERROR: user could not be found in Zoom!", w')
         /\ calls w' = [lookup_request "ghost@xyz.com" "tok"]).
Proof.
  split; [|split].
  - destruct (delete_without_user runtime net_down world0) as [H _].
    exact H.
  - destruct (delete_without_user runtime (net_const 404 "") world0)
      as [_ H].
    destruct (H "ghost" IdFalse
                (snd (findUserId runtime (net_const 404 "") (upn "ghost")
                        world0)))
      as [w' [E [Hc _]]];
      [discriminate|vm_compute; reflexivity|reflexivity|].
    exists w'. split; [exact E|]. rewrite Hc. vm_compute. reflexivity.
  - set (net := net_const 200 (user_body "" "ghost@xyz.com")).
    destruct (delete_without_user runtime net world0) as [_ H].
    destruct (H "ghost" (IdStr "")
                (snd (findUserId runtime net (upn "ghost") world0)))
      as [w' [E [Hc _]]];
      [discriminate|vm_compute; reflexivity|reflexivity|].
    exists w'. split; [exact E|]. rewrite Hc. vm_compute. reflexivity.
Defined.

Lemma delete_classifies_witness :
  (exists w',
      delete runtime (net_rename false 204 204 204) "old" world0
      = (Ok "SUCCESS: user deleted in Zoom.", w')
      /\ calls w' = [lookup_request "old@xyz.com" "tok";
                     delete_request "abc" "tok"])
  /\ (exists w',
         delete runtime net_readonly "old" world0
         = (Ok "ERROR: Could not delete Zoom user.", w')
         /\ calls w' = [lookup_request "old@xyz.com" "tok";
                        delete_request "abc" "tok"]).
Proof.
  split.
  - set (net := net_rename false 204 204 204).
    set (w1 := snd (findUserId runtime net (upn "old") world0)).
    destruct (@delete_classifies runtime net "old" world0 (IdStr "abc") w1
                "tok" (Ok (mkResponse 204 "")))
      as [w' [E [Hc _]]];
      [discriminate|vm_compute; reflexivity|reflexivity|reflexivity
      |vm_compute; reflexivity|].
    exists w'. split; [exact E|]. rewrite Hc. vm_compute. reflexivity.
  - set (w1 := snd (findUserId runtime net_readonly (upn "old") world0)).
    destruct (@delete_classifies runtime net_readonly "old" world0
                (IdStr "abc") w1 "tok"
                (Raise (RequestException "timed out")))
      as [w' [E [Hc _]]];
      [discriminate|vm_compute; reflexivity|reflexivity|reflexivity
      |vm_compute; reflexivity|].
    exists w'. split; [exact E|]. rewrite Hc. vm_compute. reflexivity.
Defined.

Lemma findUserId_raises_witness :
  fst (findUserId runtime net_down "old@xyz.com" world0)
  = Raise (UnboundLocalError "id")
  /\ fst (findUserId runtime
            (net_const 200
               ("{" ++ Py.quoted "id" ++ "," ++ Py.quoted "old@xyz.com" ++ "}"))
            "old@xyz.com" world0)
     = Raise (UnboundLocalError "id")
  /\ fst (findUserId runtime (net_const 200 (user_body "abc" jose_address))
            jose_address world0)
     = Raise (UnboundLocalError "id")
  /\ fst (findUserId runtime
            (net_const 200
               (user_body "abc" "old@xyz.com" ++ "," ++ Py.quoted jose))
            "old@xyz.com" world0)
     = Raise (UnboundLocalError "id")
  /\ fst (findUserId runtime (net_short 0) "old@xyz.com" world0)
     = Raise (TokenError "bad secret").
Proof.
  split; [|split; [|split; [|split]]].
  - apply findUserId_raises. right. split; [reflexivity|].
    exists "tok". split; [reflexivity|]. left. eexists. reflexivity.
  - apply findUserId_raises. right. split; [reflexivity|].
    exists "tok". split; [reflexivity|]. right. eexists.
    split; [reflexivity|]. split; [reflexivity|].
    right. split; [vm_compute; reflexivity|].
    right. vm_compute; reflexivity.
  - apply findUserId_raises. right. split; [reflexivity|].
    exists "tok". split; [reflexivity|]. right. eexists.
    split; [reflexivity|]. split; [reflexivity|].
    left. vm_compute; reflexivity.
  - apply findUserId_raises. right. split; [reflexivity|].
    exists "tok". split; [reflexivity|]. right. eexists.
    split; [reflexivity|]. split; [reflexivity|].
    right. split; [vm_compute; reflexivity|].
    left. vm_compute; reflexivity.
  - apply findUserId_raises. left. reflexivity.
Defined.

Lemma update_not_found_witness :
  exists w',
    update runtime (net_const 404 "") "ghost" "ghost" "False" "John" "Testuser"
           world0
    = (Ok "ERROR: user could not be found in Zoom!", w')
    /\ calls w' = [lookup_request "ghost@xyz.com" "tok"].
Proof.
  set (net := net_const 404 "").
  destruct (@update_not_found runtime net "ghost" "ghost" "False" "John"
              "Testuser" world0 IdFalse
              (snd (findUserId runtime net (upn "ghost") world0)))
    as [w' [E [Hc _]]];
    [intros []; discriminate|vm_compute; reflexivity|reflexivity|].
  exists w'. split; [exact E|]. rewrite Hc. vm_compute. reflexivity.
Defined.

Lemma update_same_name_witness :
  (exists w',
      update runtime (net_rename false 204 204 400)
             "old" "old" "True" "John" "Testuser" world0
      = (Ok "ERROR: could not update Zoom user.", w')
      /\ calls w' = [lookup_request "old@xyz.com" "tok";
                     license_patch "abc" "1" "tok"])
  /\ (exists w',
         update runtime net_readonly "old" "old" "True" "John" "Testuser"
                world0
         = (Ok "ERROR: Could not update Zoom user.", w')
         /\ calls w' = [lookup_request "old@xyz.com" "tok";
                        license_patch "abc" "1" "tok"]).
Proof.
  split.
  - set (net := net_rename false 204 204 400).
    destruct (@update_same_name runtime net "old" "old" "True" "John"
                "Testuser" world0 (IdStr "abc")
                (snd (findUserId runtime net (upn "old") world0)) "tok"
                (Ok (mkResponse 400 "")))
      as [w' [E [Hc _]]];
      [reflexivity|intros []; discriminate|vm_compute; reflexivity
      |reflexivity|reflexivity|vm_compute; reflexivity|].
    exists w'. split; [exact E|]. rewrite Hc. vm_compute. reflexivity.
  - destruct (@update_same_name runtime net_readonly "old" "old" "True" "John"
                "Testuser" world0 (IdStr "abc")
                (snd (findUserId runtime net_readonly (upn "old") world0))
                "tok" (Raise (RequestException "timed out")))
      as [w' [E [Hc _]]];
      [reflexivity|intros []; discriminate|vm_compute; reflexivity
      |reflexivity|reflexivity|vm_compute; reflexivity|].
    exists w'. split; [exact E|]. rewrite Hc. vm_compute. reflexivity.
Defined.

Lemma update_rename_exception_witness :
  exists w',
    update runtime net_readonly "old" "new" "False" "John" "Testuser" world0
    = (Ok "ERROR: Could not rename Zoom user.", w')
    /\ calls w' = [lookup_request "old@xyz.com" "tok";
                   lookup_request "new@xyz.com" "tok";
                   name_patch "abc" "John" "Testuser" "tok"]
    /\ issued w' = 3%nat.
Proof.
  set (w1 := snd (findUserId runtime net_readonly (upn "old") world0)).
  set (w2 := snd (update_rename_try runtime net_readonly "old" "new" "John"
                    "Testuser" (IdStr "abc") w1)).
  destruct (@update_rename_exception runtime net_readonly "old" "new" "False"
              "John" "Testuser" world0 (IdStr "abc") w1
              (RequestException "timed out") w2)
    as [w' [E [Hc [Hi _]]]];
    [intros []; discriminate|discriminate|vm_compute; reflexivity
    |reflexivity|vm_compute; reflexivity|].
  exists w'. split; [exact E|]. rewrite Hc, Hi.
  split; vm_compute; reflexivity.
Defined.

Lemma update_raises_in_lookup_only_witness :
  fst (findUserId runtime net_down (upn "old") world0)
  = Raise (UnboundLocalError "id")
  /\ fst (update runtime net_down "old" "new" "False" "John" "Testuser" world0)
     = Raise (UnboundLocalError "id").
Proof.
  assert (H : fst (update runtime net_down "old" "new" "False" "John"
                     "Testuser" world0) = Raise (UnboundLocalError "id")).
  { apply update_raises_in_lookup_only;
      [intros []; discriminate|vm_compute; reflexivity]. }
  split; [|exact H].
  now apply (update_raises_in_lookup_only runtime net_down
               "old" "new" "False" "John" "Testuser").
Defined.

Lemma delete_raises_in_lookup_only_witness :
  fst (delete runtime net_down "old" world0) = Raise (UnboundLocalError "id")
  /\ fst (findUserId runtime net_down (upn "old") world0)
     = Raise (UnboundLocalError "id").
Proof.
  assert (H : fst (delete runtime net_down "old" world0)
              = Raise (UnboundLocalError "id")).
  { apply delete_raises_in_lookup_only;
      [discriminate|vm_compute; reflexivity]. }
  split; [exact H|].
  now apply (delete_raises_in_lookup_only runtime net_down "old" world0).
Defined.

Lemma listusers_never_raises_witness :
  let r : outcome string :=
    Ok "ERROR: Could not get the list of Zoom users." in
  (exists w',
      listusers runtime_broken (net_const 200 "x") 1 world0 = Some (r, w'))
  /\ (r = Ok "SUCCESS: got the list of Zoom users."
      \/ r = Ok "ERROR: did not get list of Zoom users."
      \/ r = Ok "ERROR: Could not get the list of Zoom users.").
Proof.
  cbv zeta. split.
  - eexists. vm_compute. reflexivity.
  - eapply (@listusers_never_raises runtime_broken (net_const 200 "x") 1
              world0).
    vm_compute. reflexivity.
Defined.

Lemma listusers_pages_in_order_witness :
  exists w',
    listusers runtime net_pages 5 world0
    = Some (Ok "SUCCESS: got the list of Zoom users.", w')
    /\ issued w' = 1%nat
    /\ exists k, calls w' = map (fun n => page_request n "tok")
                                (pages_from 1 k).
Proof.
  eexists. split; [vm_compute; reflexivity|].
  match goal with
  | |- issued ?w' = _ /\ _ =>
      destruct (@listusers_pages_in_order runtime net_pages 5 world0
                  (Ok "SUCCESS: got the list of Zoom users.") w')
        as [Hi [_ [_ H]]]; [vm_compute; reflexivity|]
  end.
  split; [exact Hi|]. destruct (H "tok" eq_refl) as [k Hk].
  exists k. exact Hk.
Defined.

Lemma listusers_all_pages_witness :
  exists w',
    listusers runtime net_pages 3 world0
    = Some (Ok "SUCCESS: got the list of Zoom users.", w')
    /\ calls w' = map (fun n => page_request n "tok") [1; 2; 3]
    /\ stdout w' = list_header :: (page_lines 1 ++ page_lines 2
                                   ++ page_lines 3)%list.
Proof.
  destruct (@listusers_all_pages runtime net_pages world0 "tok" 3 page_lines
              3%nat) as [w' [E [Hc Hp]]].
  - lia.
  - reflexivity.
  - intros hist n Hn.
    assert (Hcase : n = 1 \/ n = 2 \/ n = 3) by lia.
    destruct Hcase as [-> | [-> | ->]].
    + exists (mkResponse 200 "page1"). split; [reflexivity|].
      split; [reflexivity|]. exists (page users1 3 1), users1.
      repeat (split; [reflexivity|]). repeat constructor.
    + exists (mkResponse 200 "page2"). split; [reflexivity|].
      split; [reflexivity|]. exists (page users2 3 2), users2.
      repeat (split; [reflexivity|]). repeat constructor.
    + exists (mkResponse 200 "page3"). split; [reflexivity|].
      split; [reflexivity|]. exists (page users3 3 3), users3.
      repeat (split; [reflexivity|]). repeat constructor.
  - vm_compute. lia.
  - exists w'. split; [exact E|]. split; [exact Hc|]. rewrite Hp.
    vm_compute. reflexivity.
Defined.

Lemma listusers_malformed_user_witness :
  exists w',
    listusers runtime_broken (net_const 200 "x") 1 world0
    = Some (Ok "ERROR: Could not get the list of Zoom users.", w')
    /\ calls w' = [page_request 1 "tok"]
    /\ stdout w'
       = [list_header; "u1,Ann,Lee,ann@xyz.com,2,active";
          "ERROR: unknown error while getting the list of Zoom users: 'first_name'"].
Proof.
  destruct (@listusers_malformed_user runtime_broken (net_const 200 "x")
              world0 "tok" (mkResponse 200 "x") broken_page
              [user "u1" "Ann" "Lee" "ann@xyz.com" 2 "active"]
              ["u1,Ann,Lee,ann@xyz.com,2,active"]
              (PyDict [("id", PyStr "u9")])
              [user "u2" "Bob" "Ray" "bob@xyz.com" 1 "active"]
              (KeyError "first_name") 0%nat)
    as [w' [E [Hc Hp]]];
    [reflexivity|reflexivity|reflexivity|reflexivity|reflexivity
    |repeat constructor|reflexivity|].
  exists w'. split; [exact E|]. split; [exact Hc|]. rewrite Hp.
  vm_compute. reflexivity.
Defined.

Lemma main_writes_prefix_witness :
  exists w' results,
    main runtime (net_rename false 204 204 204) "in.json" "out.csv"
         [delete_of "old"; delete_of "b"; unknown_action "c"] 1 world0
    = Some (Ok tt, w')
    /\ (length results <= 3)%nat
    /\ out_rows w'
       = ["action"; "username"; "result"]
           :: map (fun p => row_of (fst p) (snd p))
                  (combine [delete_of "old"; delete_of "b"; unknown_action "c"]
                           results).
Proof.
  eexists.
  match goal with
  | |- exists results, main ?py ?net ?i ?o ?rows ?fuel ?w = Some (_, ?w') /\ _ =>
      assert (E : main py net i o rows fuel w = Some (Ok tt, w'))
        by (vm_compute; reflexivity);
      destruct (@main_writes_prefix py net i o rows fuel w (Ok tt) w' E)
        as [_ [results [Hl Ho]]]
  end.
  exists results. split; [exact E|]. split; [exact Hl|exact Ho].
Defined.

Lemma resolver_answers upn w e :
  fst (findUserId runtime (net_const 404 "") upn w) <> Raise e.
Proof.
  unfold findUserId, findUserId_try. msimpl. cbn. discriminate.
Qed.

Lemma main_writes_all_rows_witness :
  (exists w' results,
      main runtime (net_const 404 "") "in.json" "out.csv"
           [delete_of "a"; rename_old_new; unknown_action "c"] 1 world0
      = Some (Ok tt, w')
      /\ length results = 3%nat
      /\ out_rows w'
         = ["action"; "username"; "result"]
             :: map (fun p => row_of (fst p) (snd p))
                    (combine
                       [delete_of "a"; rename_old_new; unknown_action "c"]
                       results))
  /\ (exists r w',
         main runtime (net_const 404 "") "in.json" "out.csv"
              [delete_of "a"; rename_old_new; unknown_action "c"] 0 world0
         = Some (r, w')).
Proof.
  assert (Hrows : Forall (fun row => ascii_row row = true)
                    [delete_of "a"; rename_old_new; unknown_action "c"]).
  { repeat (constructor; [vm_compute; reflexivity|]). constructor. }
  split.
  - eexists.
    match goal with
    | |- exists results,
           main ?py ?net ?i ?o ?rows ?fuel ?w = Some (_, ?w') /\ _ =>
        assert (E : main py net i o rows fuel w = Some (Ok tt, w'))
          by (vm_compute; reflexivity);
        destruct (proj1 (@main_writes_all_rows py net i o rows fuel w
                           resolver_answers Hrows) (Ok tt) w' E)
          as [results [Hl Ho]]
    end.
    exists results. split; [exact E|]. split; [exact Hl|exact Ho].
  - apply (proj2 (@main_writes_all_rows runtime (net_const 404 "")
                    "in.json" "out.csv"
                    [delete_of "a"; rename_old_new; unknown_action "c"]
                    0 world0 resolver_answers Hrows)).
    repeat (constructor; [vm_compute; discriminate|]). constructor.
Defined.

Lemma main_unrecognized_witness :
  exists w',
    main runtime net_down "in.json" "out.csv"
         [unknown_action "a"; unknown_action "b"] 0 world0
    = Some (Ok tt, w')
    /\ out_rows w'
       = [["action"; "username"; "result"];
          ["create"; "a"; "ERROR: Unrecognized action."];
          ["create"; "b"; "ERROR: Unrecognized action."]]
    /\ calls w' = [] /\ issued w' = 0%nat.
Proof.
  apply (@main_unrecognized runtime net_down "in.json" "out.csv"
           [unknown_action "a"; unknown_action "b"] 0 world0).
  repeat (constructor;
          [repeat split; try discriminate; vm_compute; reflexivity|]).
  constructor.
Defined.

Lemma findUserId_wellformed_witness :
  findUserId runtime
    (net_const 200 (user_body "KDcuGIm1QgePTO8WbOqwIQ" "old@xyz.com"))
    "old@xyz.com" world0
  = (Ok (IdStr "KDcuGIm1QgePTO8WbOqwIQ"),
     after world0 [lookup_request "old@xyz.com" "tok"] 1 [] []).
Proof.
  apply (@findUserId_wellformed runtime
           (net_const 200 (user_body "KDcuGIm1QgePTO8WbOqwIQ" "old@xyz.com"))
           "old@xyz.com" world0 "tok" "KDcuGIm1QgePTO8WbOqwIQ"
           (Py.quoted "email" ++ ":" ++ Py.quoted "old@xyz.com" ++ "}"));
    vm_compute; reflexivity.
Defined.

Lemma findUserId_other_first_field_witness :
  findUserId runtime
    (net_const 200 ("{" ++ Py.quoted "email" ++ ":" ++ Py.quoted "old@xyz.com"
                    ++ "," ++ Py.quoted "id" ++ ":" ++ Py.quoted "abc" ++ "}"))
    "old@xyz.com" world0
  = (Ok IdFalse, after world0 [lookup_request "old@xyz.com" "tok"] 1 [] []).
Proof.
  apply (@findUserId_other_first_field runtime
           (net_const 200 ("{" ++ Py.quoted "email" ++ ":"
                           ++ Py.quoted "old@xyz.com" ++ ","
                           ++ Py.quoted "id" ++ ":" ++ Py.quoted "abc" ++ "}"))
           "old@xyz.com" world0 "tok"
           (mkResponse 200 ("{" ++ Py.quoted "email" ++ ":"
                            ++ Py.quoted "old@xyz.com" ++ ","
                            ++ Py.quoted "id" ++ ":" ++ Py.quoted "abc" ++ "}")));
    try (vm_compute; reflexivity).
  vm_compute. discriminate.
Defined.

Lemma update_rename_success_witness :
  exists w',
    update runtime (net_rename false 204 204 204)
           "old" "new" "True" "John" "Testuser" world0
    = (Ok "SUCCESS: user was updated in Zoom.", w')
    /\ calls w' = [lookup_request "old@xyz.com" "tok";
                   lookup_request "new@xyz.com" "tok";
                   name_patch "abc" "John" "Testuser" "tok";
                   email_put "abc" "new@xyz.com" "tok";
                   license_patch "abc" "1" "tok"]
    /\ issued w' = 4%nat.
Proof.
  set (net := net_rename false 204 204 204).
  set (w1 := snd (findUserId runtime net (upn "old") world0)).
  set (w2 := snd (findUserId runtime net (upnew "new") w1)).
  destruct (@update_rename_success runtime net "old" "new" "True" "John"
              "Testuser" world0 (IdStr "abc") w1 IdFalse w2 "tok"
              (mkResponse 204 "") (mkResponse 204 "") "tok"
              (mkResponse 204 ""))
    as [tok1 [tok2 [w' [E [Hc Hi]]]]];
    [intros []; discriminate|discriminate|vm_compute; reflexivity|reflexivity
    |vm_compute; reflexivity|reflexivity|reflexivity|vm_compute; reflexivity
    |vm_compute; reflexivity|reflexivity|reflexivity|vm_compute; reflexivity
    |reflexivity|].
  exists w'. split; [exact E|].
  assert (Hw : w' = snd (update runtime net "old" "new" "True" "John"
                           "Testuser" world0)) by now rewrite E.
  rewrite Hw. split; vm_compute; reflexivity.
Defined.

Lemma readConfig_true_iff_witness :
  readConfig import_settings config_message "zoom_settings.py"
             (mkGlobals None None) world0
  = (Started true, mkGlobals (Some "key1") (Some "secret1"), world0)
  /\ readConfig import_settings config_message "missing.py"
                (mkGlobals None None) world0
     = (Failed (ImportError "No module named missing"),
        mkGlobals None None, world0).
Proof.
  split.
  - apply (readConfig_true_iff import_settings config_message "zoom_settings"
             (mkGlobals None None) world0).
    exists [("API_KEY", "key1"); ("API_SEC", "secret1")], "key1", "secret1".
    repeat split.
  - apply (readConfig_true_iff import_settings config_message "missing"
             (mkGlobals None None) world0).
    reflexivity.
Defined.

Lemma readConfig_half_set_witness :
  readConfig import_settings config_message "half_settings.py"
             (mkGlobals (Some "key1") (Some "secret1")) world0
  = (Started false, mkGlobals (Some "key2") (Some "secret1"),
     after world0 [] 0
       ["ERROR: unable to parse the settings file: 'module' object has no attribute 'API_SEC'"]
       [(ERROR, "unable to parse settings file")]).
Proof.
  apply (@readConfig_half_set import_settings config_message "half_settings"
           (mkGlobals (Some "key1") (Some "secret1")) world0
           [("API_KEY", "key2")] "key2"); reflexivity.
Defined.

Lemma main_files_failures_witness :
  exists w',
    main_files runtime net_down (Actions [delete_of "a"]) false
               "in.json" "/out.csv" 1 world0
    = Some (Raise (UnboundLocalError "f_out"), w')
    /\ out_rows w' = [] /\ calls w' = [].
Proof.
  destruct (main_files_failures runtime net_down "in.json" "/out.csv" 1 world0)
    as [_ [H _]].
  destruct (H (Actions [delete_of "a"])) as [w' [E [_ [Ho [Hc _]]]]];
    [discriminate|].
  exists w'. split; [exact E|]. split; [exact Ho|exact Hc].
Defined.

End MoreWitnesses.
